(** * mmdeploy.codebase.base.backend_model : the backend factory and the
      inference facade of [BaseBackendModel]

    A shallow embedding of [src/mmdeploy/codebase/base/backend_model.py].
    Python values are a small tagged union, dictionaries are finite maps,
    exceptions are an explicit result type, and the two observable effects
    of the module (adapter constructors being called, the adapter's
    [destroy] being called) are threaded as explicit state. *)

From Stdlib Require Import ZArith Lia.
From stdpp Require Import base option list strings gmap.

Open Scope string_scope.

(** ** Python values and exceptions *)

Module Py.

(** The values that flow through the module: [None], booleans, integers,
    strings and lists of strings (the tensor-name lists of the metadata). *)
Inductive pyval : Type :=
| VNone
| VBool (b : bool)
| VInt (n : Z)
| VStr (s : string)
| VList (l : list string).

(** The exceptions the module raises itself or lets through. *)
Inductive pyexc : Type :=
| IndexError
| KeyError
| TypeError
| AssertionError (msg : string)
| NotImplementedError (msg : string)
| RuntimeError (msg : string).

Inductive result (A : Type) : Type :=
| Return (a : A)
| Raise (e : pyexc).
Arguments Return {A} a.
Arguments Raise {A} e.

(** [bool(v)] *)
Definition truthy (v : pyval) : bool :=
  match v with
  | VNone => false
  | VBool b => b
  | VInt n => negb (n =? 0)%Z
  | VStr s => negb (String.eqb s "")
  | VList l => match l with [] => false | _ :: _ => true end
  end.

(** [v[0]] *)
Definition getitem0 (v : pyval) : result pyval :=
  match v with
  | VList (x :: _) => Return (VStr x)
  | VList [] => Raise IndexError
  | VStr (String c _) => Return (VStr (String c ""))
  | VStr EmptyString => Raise IndexError
  | VNone | VBool _ | VInt _ => Raise TypeError
  end.

(** [seq[i]] on a sequence of paths, for the constant indices the factory
    uses. *)
Definition index (seq : list string) (i : nat) : result string :=
  match seq !! i with
  | Some x => Return x
  | None => Raise IndexError
  end.

(** [d.get(k, default)] *)
Definition dict_get (d : gmap string pyval) (k : string) (default : pyval)
  : pyval :=
  match d !! k with
  | Some v => v
  | None => default
  end.

(** [d[k]] *)
Definition dict_item (d : gmap string pyval) (k : string) : result pyval :=
  match d !! k with
  | Some v => Return v
  | None => Raise KeyError
  end.

End Py.
Import Py.

(** ** The error taxonomy of the specification *)

Inductive ErrorKind : Type :=
| UnsupportedBackend
| MissingArtifact
| MissingConfiguration
| AdapterConstructionFailure
| InvocationFailure.

(** The kind under which an exception raised by the factory itself is
    reported: an out-of-range artifact index is a missing artifact, a failed
    metadata assertion or lookup is a missing configuration, the final
    [else] branch is an unsupported backend.  Exceptions of the adapters are
    passed through and are not classified here. *)
Definition error_kind (e : pyexc) : option ErrorKind :=
  match e with
  | IndexError => Some MissingArtifact
  | AssertionError _ => Some MissingConfiguration
  | KeyError => Some MissingConfiguration
  | NotImplementedError _ => Some UnsupportedBackend
  | TypeError | RuntimeError _ => None
  end.

(** ** Backends and adapter constructors *)

(** Modelled from the spec: the [Backend] enumeration of [mmdeploy.utils]
    is not part of the sources at hand.  The nine members the factory
    dispatches on are those named in [_build_wrapper]; every other member of
    the enumeration is represented by its [value]. *)
Inductive Backend : Type :=
| ONNXRUNTIME
| TENSORRT
| PPLNN
| NCNN
| OPENVINO
| SDK
| TORCHSCRIPT
| ASCEND
| SNPE
| OtherBackend (value : string).

(** One constructor per adapter class, carrying the keyword arguments that
    [_build_wrapper] passes to it. *)
Inductive WrapperCall : Type :=
| ORTWrapper (onnx_file : string) (device : string)
    (output_names : option (list string))
| TRTWrapper (engine : string) (output_names : option (list string))
| PPLNNWrapper (onnx_file : string) (algo_file : option string)
    (device : string) (output_names : option (list string))
| NCNNWrapper (param_file bin_file : string)
    (output_names : option (list string)) (use_vulkan : pyval)
| OpenVINOWrapper (ir_model_file : string)
    (output_names : option (list string))
| SDKWrapper (model_file : string) (task_name : pyval) (device : string)
| TorchscriptWrapper (model : string)
    (input_names output_names : option (list string))
| AscendWrapper (model : string) (device : string)
| SNPEWrapper (dlc_file : string) (uri : pyval)
    (output_names : option (list string)).

(** An adapter object as the facade sees it: the only capability the facade
    inspects is the optional [destroy] attribute.  Its body belongs to the
    adapter; [k] is the number of times it has been invoked before. *)
Record Wrapper : Type := mkWrapper {
  destroy_attr : option (nat -> result unit)
}.

(** ** A state and exception monad over the log of constructor calls *)

Definition M (A : Type) : Type :=
  list WrapperCall -> result A * list WrapperCall.

Definition ret {A} (a : A) : M A := fun log => (Return a, log).
Definition raise {A} (e : pyexc) : M A := fun log => (Raise e, log).
Definition lift {A} (r : result A) : M A := fun log => (r, log).
Definition bind {A B} (m : M A) (k : A -> M B) : M B :=
  fun log =>
    match m log with
    | (Return a, log') => k a log'
    | (Raise e, log') => (Raise e, log')
    end.

Declare Scope py_scope.
Delimit Scope py_scope with py.
Notation "'let*' x ':=' m 'in' k" := (bind m (fun x => k))
  (at level 10, x name, m at level 100, k at level 200,
   only parsing) : py_scope.
Open Scope py_scope.

(** Sequencing in the pure exception monad. *)
Definition rbind {A B} (r : result A) (k : A -> result B) : result B :=
  match r with
  | Return a => k a
  | Raise e => Raise e
  end.

(** The number of artifact paths a branch of [_build_wrapper] reads
    unconditionally; the second path of the PPLNN branch is optional and not
    counted.  [None] marks a backend outside the dispatch table. *)
Definition required_files (backend : Backend) : option nat :=
  match backend with
  | NCNN => Some 2
  | OtherBackend _ => None
  | _ => Some 1
  end.

(** The attributes of a [BaseBackendModel] instance.  [wrapper] is bound by
    the concrete model classes, not by the base constructor; [None] is an
    instance on which the attribute was never set. *)
Record BaseBackendModel : Type := mkModel {
  input_name : pyval;
  output_names : pyval;
  wrapper : option Wrapper
}.

(** ** The factory [_build_wrapper] and the constructor [__init__] *)

Section Factory.

(** The collaborators imported from [mmdeploy.utils] and [mmdeploy.backend],
    none of which is part of the sources at hand.  They are parameters of
    the development. *)

(** The type of a loaded deployment configuration and of a task type. *)
Context {Config Task : Type}.

(** [bool(deploy_cfg)] for a configuration object. *)
Variable cfg_bool : Config -> bool.

(** Modelled from the spec: [get_ir_config] and [get_backend_config] are
    missing; they read the section of the deployment metadata that holds the
    declared tensor names, respectively the per-backend optional fields, as
    a dictionary. *)
Variable get_ir_config : Config -> gmap string pyval.
Variable get_backend_config : Config -> gmap string pyval.

(** Modelled from the spec: [get_task_type] and [SDK_TASK_MAP] are missing;
    the first reads the task-type identifier of the metadata and fails when
    it is absent, the second is the table from task types to class
    descriptions, [None] standing for an absent key. *)
Variable get_task_type : Config -> result Task.
Variable SDK_TASK_MAP : Task -> option (gmap string pyval).

(** The adapter classes: what calling a constructor with given arguments
    yields, an adapter object or the adapter's own exception. *)
Variable construct : WrapperCall -> result Wrapper.

(** Calling an adapter constructor, recorded in the log. *)
Definition new (c : WrapperCall) : M Wrapper :=
  fun log => (construct c, (log ++ [c])%list).

(** [SDK_TASK_MAP[t]] *)
Definition task_map_item (t : Task) : result (gmap string pyval) :=
  match SDK_TASK_MAP t with
  | Some d => Return d
  | None => Raise KeyError
  end.

(** The local [from ... import ...] statements of the branches bind the
    adapter classes and have no counterpart here.  Keyword arguments are
    evaluated from left to right before the constructor is called. *)
Definition _build_wrapper
    (backend : Backend) (backend_files : list string) (device : string)
    (input_names output_names : option (list string))
    (deploy_cfg : option Config) (kwargs : gmap string pyval)
  : M Wrapper :=
  match backend with
  | ONNXRUNTIME =>
      let* onnx_file := lift (index backend_files 0) in
      new (ORTWrapper onnx_file device output_names)
  | TENSORRT =>
      let* engine := lift (index backend_files 0) in
      new (TRTWrapper engine output_names)
  | PPLNN =>
      let* onnx_file := lift (index backend_files 0) in
      let* algo_file :=
        (if (1 <? length backend_files)%nat
         then (let* f := lift (index backend_files 1) in ret (Some f))
         else ret None) in
      new (PPLNNWrapper onnx_file algo_file device output_names)
  | NCNN =>
      let use_vulkan :=
        match deploy_cfg with
        | Some cfg =>
            if cfg_bool cfg
            then dict_get (get_backend_config cfg) "use_vulkan" (VBool false)
            else VBool false
        | None => VBool false
        end in
      let* param_file := lift (index backend_files 0) in
      let* bin_file := lift (index backend_files 1) in
      new (NCNNWrapper param_file bin_file output_names use_vulkan)
  | OPENVINO =>
      let* ir_model_file := lift (index backend_files 0) in
      new (OpenVINOWrapper ir_model_file output_names)
  | SDK =>
      match deploy_cfg with
      | None =>
          raise (AssertionError "Building SDKWrapper requires deploy_cfg")
      | Some cfg =>
          let* task := lift (get_task_type cfg) in
          let* entry := lift (task_map_item task) in
          let* task_name := lift (dict_item entry "cls_name") in
          let* model_file := lift (index backend_files 0) in
          new (SDKWrapper model_file task_name device)
      end
  | TORCHSCRIPT =>
      let* model := lift (index backend_files 0) in
      new (TorchscriptWrapper model input_names output_names)
  | ASCEND =>
      let* model := lift (index backend_files 0) in
      new (AscendWrapper model device)
  | SNPE =>
      let uri :=
        match kwargs !! "uri" with
        | Some v => v
        | None => VNone
        end in
      let* dlc_file := lift (index backend_files 0) in
      new (SNPEWrapper dlc_file uri output_names)
  | OtherBackend value =>
      raise (NotImplementedError ("Unknown backend type: " ++ value))
  end.

(** [BaseBackendModel.__init__]: the two names come from the metadata alone;
    the [wrapper] attribute is left unbound. *)
Definition __init__ (deploy_cfg : option Config) : result BaseBackendModel :=
  let names :=
    match deploy_cfg with
    | Some cfg =>
        let ir_config := get_ir_config cfg in
        (dict_get ir_config "input_names" VNone,
         dict_get ir_config "output_names" VNone)
    | None => (VNone, VNone)
    end in
  rbind (if truthy (fst names) then getitem0 (fst names)
         else Return (VStr "input"))
    (fun name =>
       Return {| input_name := name;
                 output_names :=
                   (if truthy (snd names) then snd names
                    else VList ["output"]);
                 wrapper := None |}).

(** The metadata declares exactly the name lists [ins] and [outs]: an
    absent list is an absent entry, and without metadata both are absent. *)
Definition declares (deploy_cfg : option Config)
    (ins outs : option (list string)) : Prop :=
  match deploy_cfg with
  | Some cfg =>
      get_ir_config cfg !! "input_names" = VList <$> ins
      /\ get_ir_config cfg !! "output_names" = VList <$> outs
  | None => ins = None /\ outs = None
  end.

End Factory.

(** ** The facade: [destroy] *)

(** The part of the store [destroy] can touch: the instance itself and the
    number of times the body of the adapter's [destroy] has been run. *)
Record Heap : Type := mkHeap {
  self : BaseBackendModel;
  destroy_calls : nat
}.

(** [hasattr(self, 'wrapper') and hasattr(self.wrapper, 'destroy')] guards
    the single call [self.wrapper.destroy()]. *)
Definition destroy (h : Heap) : result unit * Heap :=
  match wrapper (self h) with
  | Some w =>
      match destroy_attr w with
      | Some body =>
          (body (destroy_calls h),
           {| self := self h; destroy_calls := S (destroy_calls h) |})
      | None => (Return tt, h)
      end
  | None => (Return tt, h)
  end.

(** Two statements [m.destroy(); m.destroy()] of a caller: the second runs
    only when the first has returned. *)
Definition destroy_twice (h : Heap) : result unit * Heap :=
  match destroy h with
  | (Return _, h1) => destroy h1
  | (Raise e, h1) => (Raise e, h1)
  end.

(** ** A concrete environment

    One instance of the collaborators, on which the model is run: a
    configuration is three optional parts, the task table has a single
    entry, and every adapter class builds an adapter whose [destroy] always
    returns. *)

Module Example.

Record DeployCfg : Type := mkCfg {
  cfg_ir : gmap string pyval;
  cfg_backend : gmap string pyval;
  cfg_task : option string
}.

(** A configuration is falsy exactly when it has no entry at all. *)
Definition cfg_bool (c : DeployCfg) : bool :=
  negb (bool_decide (cfg_ir c = ∅) && bool_decide (cfg_backend c = ∅)
        && bool_decide (cfg_task c = None)).

Definition get_task_type (c : DeployCfg) : result string :=
  match cfg_task c with
  | Some t => Return t
  | None => Raise (AssertionError "requires a task field")
  end.

Definition SDK_TASK_MAP (t : string) : option (gmap string pyval) :=
  if String.eqb t "Classification"
  then Some {[ "component" := VStr "Classifier";
               "cls_name" := VStr "Classifier" ]}
  else None.

Definition releasable : Wrapper :=
  mkWrapper (Some (fun _ => Return tt)).

Definition plain : Wrapper := mkWrapper None.

Definition construct (c : WrapperCall) : result Wrapper := Return releasable.

Definition build :=
  _build_wrapper cfg_bool cfg_backend get_task_type SDK_TASK_MAP construct.

Definition init := __init__ cfg_ir.

(** Metadata that declares two inputs and no outputs, and no flag. *)
Definition cfg_xy : DeployCfg :=
  mkCfg {[ "input_names" := VList ["x"; "y"] ]} ∅ None.

(** Metadata that declares an empty list of outputs. *)
Definition cfg_no_outputs : DeployCfg :=
  mkCfg {[ "output_names" := VList [] ]} ∅ None.

(** Metadata for the SDK backend. *)
Definition cfg_sdk : DeployCfg :=
  mkCfg ∅ ∅ (Some "Classification").

(** A bound facade whose adapter can be destroyed, one whose adapter
    cannot, and an instance on which [wrapper] was never set. *)
Definition bound : Heap :=
  mkHeap (mkModel (VStr "input") (VList ["output"]) (Some releasable)) 0.

Definition bound_plain : Heap :=
  mkHeap (mkModel (VStr "input") (VList ["output"]) (Some plain)) 0.

Definition unbound : Heap :=
  mkHeap (mkModel (VStr "input") (VList ["output"]) None) 0.

End Example.

(** * tools.scripts.ubuntu_utils : the host provisioning helpers

    A shallow embedding of [src/tools/scripts/ubuntu_utils.py].  A string
    is a sequence of characters with code points below 256, one per
    [ascii].  The host is an abstract state: what a shell command prints
    and how it changes the host are parameters, and so is the builtin
    [int].  Every effect of the script (a command read through [os.popen],
    a command run through [os.system], a line printed, a sleep, an import)
    is appended to a trace. *)

Module Ubuntu.

Import Stdlib.Strings.Ascii.

(** *** Strings *)

Definition nl : string := String "010"%char "".
Definition tab : string := String "009"%char "".
Definition dquote : string := String "034"%char "".

(** [c.isspace()] for a character below 256. *)
Definition isspace (c : ascii) : bool :=
  let n := nat_of_ascii c in
  ((9 <=? n) && (n <=? 13) || (28 <=? n) && (n <=? 32)
   || (n =? 133) || (n =? 160))%nat.

(** [s.lstrip()] *)
Fixpoint lstrip (s : string) : string :=
  match s with
  | String c s' => if isspace c then lstrip s' else s
  | EmptyString => EmptyString
  end.

(** [s.rstrip()] *)
Fixpoint rstrip (s : string) : string :=
  match s with
  | String c s' =>
      match rstrip s' with
      | EmptyString => if isspace c then EmptyString else String c EmptyString
      | r => String c r
      end
  | EmptyString => EmptyString
  end.

(** [s.split(sep)] for a separator of one character. *)
Fixpoint split (sep : ascii) (s : string) : list string :=
  match s with
  | EmptyString => [EmptyString]
  | String c s' =>
      if Ascii.eqb c sep then EmptyString :: split sep s'
      else match split sep s' with
           | piece :: pieces => String c piece :: pieces
           | [] => [String c EmptyString]
           end
  end.

(** [sub in s] *)
Fixpoint contains (sub s : string) : bool :=
  String.prefix sub s
  || match s with
     | String _ s' => contains sub s'
     | EmptyString => false
     end.

(** [c in s] for a character [c] *)
Fixpoint has_char (c : ascii) (s : string) : bool :=
  match s with
  | String d s' => Ascii.eqb d c || has_char c s'
  | EmptyString => false
  end.

(** The separator of version numbers. *)
Definition dot : ascii := ".".

(** Every character of [s] is white space. *)
Fixpoint blank (s : string) : bool :=
  match s with
  | String c s' => isspace c && blank s'
  | EmptyString => true
  end.


Fixpoint last_char (s : string) : option ascii :=
  match s with
  | String c EmptyString => Some c
  | String _ s' => last_char s'
  | EmptyString => None
  end.

(** [str(v)] of a value that is a string or [None], as [format] renders
    it. *)
Definition str (v : option string) : string :=
  match v with
  | Some s => s
  | None => "None"
  end.

(** *** Outcomes *)

Inductive exn : Type :=
| IndexError
| ValueError.

(** How a function call ends. *)
Inductive outcome (A : Type) : Type :=
| Done (a : A)
| Fail (e : exn).
Arguments Done {A} a.
Arguments Fail {A} e.

(** How a statement ends inside a function that returns an [R]: control
    goes on to the next statement, the function returns, or an exception
    leaves it. *)
Inductive flow (R A : Type) : Type :=
| Next (a : A)
| Exit (r : R)
| Throw (e : exn).
Arguments Next {R A} a.
Arguments Exit {R A} r.
Arguments Throw {R A} e.

Inductive event : Type :=
| Popen (cmd : string)
| System (cmd : string)
| Print (text : string)
| Sleep (seconds : nat)
| Import (name : string).

(** The commands a trace has run through [os.system], in order. *)
Definition commands (t : list event) : list string :=
  omap (fun e => match e with System cmd => Some cmd | _ => None end) t.

Section Host.

(** The state of the host. *)
Context {World : Type}.

(** [os.popen(cmd).read()]: the text printed by the command and the host
    it leaves. *)
Variable popen_read : string -> World -> string * World.

(** [os.system(cmd)]: the host the command leaves; the script never looks
    at the exit status. *)
Variable os_system : string -> World -> World.

(** [import name] followed by a read of [name.__version__]: the version,
    or [None] when either raises. *)
Variable import_version : string -> World -> option string * World.

(** The builtin [int] on a string; [None] when it raises [ValueError]. *)
Variable int : string -> option Z.

Definition OS (A : Type) : Type :=
  World -> list event -> outcome A * World * list event.

Definition Block (R A : Type) : Type :=
  World -> list event -> flow R A * World * list event.

Definition next {R A} (a : A) : Block R A := fun w t => (Next a, w, t).
Definition exit {R A} (r : R) : Block R A := fun w t => (Exit r, w, t).
Definition throw {R A} (e : exn) : Block R A := fun w t => (Throw e, w, t).

Definition seq {R A B} (m : Block R A) (k : A -> Block R B) : Block R B :=
  fun w t =>
    match m w t with
    | (Next a, w', t') => k a w' t'
    | (Exit r, w', t') => (Exit r, w', t')
    | (Throw e, w', t') => (Throw e, w', t')
    end.

(** What holds of the way a statement ends from a given state: [Q] of the
    value, host and trace when control goes on, [QE] when the function
    returns, [QT] when an exception leaves it. *)
Definition wp {R A} (b : Block R A)
    (Q : A -> World -> list event -> Prop)
    (QE : R -> World -> list event -> Prop)
    (QT : exn -> World -> list event -> Prop)
    (w : World) (t : list event) : Prop :=
  match b w t with
  | (Next a, w', t') => Q a w' t'
  | (Exit r, w', t') => QE r w' t'
  | (Throw e, w', t') => QT e w' t'
  end.

(** A function body: it ends by a [return] statement. *)
Definition fn {R} (body : Block R R) : OS R :=
  fun w t =>
    match body w t with
    | (Next r, w', t') => (Done r, w', t')
    | (Exit r, w', t') => (Done r, w', t')
    | (Throw e, w', t') => (Fail e, w', t')
    end.

(** A call of a function from inside a body. *)
Definition call {R A} (f : OS A) : Block R A :=
  fun w t =>
    match f w t with
    | (Done a, w', t') => (Next a, w', t')
    | (Fail e, w', t') => (Throw e, w', t')
    end.

(** A pure computation that may raise. *)
Definition eval {R A} (o : outcome A) : Block R A :=
  fun w t =>
    match o with
    | Done a => (Next a, w, t)
    | Fail e => (Throw e, w, t)
    end.

Definition popen {R} (cmd : string) : Block R string :=
  fun w t =>
    let (out, w') := popen_read cmd w in
    (Next out, w', (t ++ [Popen cmd])%list).

Definition system {R} (cmd : string) : Block R unit :=
  fun w t => (Next tt, os_system cmd w, (t ++ [System cmd])%list).

(** [print(text, end=e)] *)
Definition print_end {R} (text e : string) : Block R unit :=
  fun w t => (Next tt, w, (t ++ [Print (text ++ e)])%list).

(** [print(text)] *)
Definition print {R} (text : string) : Block R unit := print_end text nl.

Definition sleep {R} (seconds : nat) : Block R unit :=
  fun w t => (Next tt, w, (t ++ [Sleep seconds])%list).

Definition import {R} (name : string) : Block R (option string) :=
  fun w t =>
    let (v, w') := import_version name w in
    (Next v, w', (t ++ [Import name])%list).

Declare Scope os_scope.
Delimit Scope os_scope with os.
Notation "'let*' x ':=' m 'in' k" := (seq m (fun x => k))
  (at level 10, x name, m at level 100, k at level 200,
   only parsing) : os_scope.
Local Open Scope os_scope.

(** [int(s)] *)
Definition to_int (s : string) : outcome Z :=
  match int s with
  | Some n => Done n
  | None => Fail ValueError
  end.

(** [seq[i]] *)
Definition item (l : list string) (i : nat) : outcome string :=
  match l !! i with
  | Some x => Done x
  | None => Fail IndexError
  end.

Definition cmd_result (txt : string) : OS string :=
  fn (let* out := popen txt in
      exit (lstrip (rstrip out))).

Definition get_job (argv : list string) : OS Z :=
  fn (if (length argv <=? 1)%nat then
        let* argv0 := eval (item argv 0) in
        let* _ := print ("your can use `python3 " ++ argv0
                         ++ " N` to set make -j [N]") in
        let* nproc := call (cmd_result "nproc") in
        if (0 <? String.length nproc)%nat then
          let* n := eval (to_int nproc) in
          exit (Z.max (n - 1) 2)
        else exit 2%Z
      else
        let* argv1 := eval (item argv 1) in
        let* n := eval (to_int argv1) in
        exit n).

Definition version_major (txt : string) : outcome Z :=
  match item (split "." txt) 0 with
  | Done x => to_int x
  | Fail e => Fail e
  end.

Definition version_minor (txt : string) : outcome Z :=
  match item (split "." txt) 1 with
  | Done x => to_int x
  | Fail e => Fail e
  end.

Definition cu_version_name (version : string) : outcome string :=
  let versions := split "." version in
  match item versions 0 with
  | Done v0 =>
      match item versions 1 with
      | Done v1 => Done ("cu" ++ v0 ++ v1)
      | Fail e => Fail e
      end
  | Fail e => Fail e
  end.

(** [cmd_result] never yields [None], so the test
    [result is None or len(result) < 1] is the test on the length. *)
Definition simple_check_install (bin sudo : string) : OS (option string) :=
  fn (let* result := call (cmd_result ("which " ++ bin)) in
      let* result :=
        (if (String.length result <? 1)%nat then
           let* _ := print_end (bin ++ " not found, try install " ++ bin
                                ++ " ..") "" in
           let* _ := system (sudo ++ " apt install " ++ bin ++ " -y") in
           let* result := call (cmd_result ("which " ++ bin)) in
           let* _ :=
             (if (String.length result <? 1)%nat then
                let* _ := print ("Check " ++ bin ++ " failed.") in
                exit None
              else next tt) in
           let* _ := print "success" in
           next result
         else next result) in
      exit (Some result)).

(** The text of the local [description]. *)
Definition description : string :=
  nl ++ "    check python, root, pytorch version, auto install these binary:"
  ++ nl ++ nl
  ++ "    * make" ++ nl
  ++ "    * g++-7" ++ nl
  ++ "    * git" ++ nl
  ++ "    * wget" ++ nl
  ++ "    * unzip" ++ nl
  ++ "    * opencv" ++ nl
  ++ "    * mmcv (not compulsory)" ++ nl
  ++ "    ".

(** The command that reads the release number of the distribution. *)
Definition lsb_release : string :=
  " lsb_release -a 2>/dev/null | grep " ++ dquote ++ "Release" ++ dquote
  ++ " | tail -n 1 | awk '{print $NF}' ".

(** The line added to [envs] when cmake is found only on the user's
    path. *)
Definition export_path : string := "export PATH=${PATH}:~/.local/bin".

(** ['-' * 10] *)
Definition dashes : string := "----------".

Definition ensure_base_env (work_dir dep_dir : string)
  : OS (Z * list string) :=
  fn (let envs : list string := [] in
      let* _ := print (dashes ++ "ensure base env" ++ dashes) in
      let* _ := print description in
      let* _ := system "python3 -m ensurepip" in
      let* _ := system "python3 -m pip install wheel" in
      let* whoami := call (cmd_result "whoami") in
      let sudo := if contains "root" whoami then "" else "sudo" in
      (* check ubuntu *)
      let* ubuntu := call (cmd_result lsb_release) in
      (* check cmake version *)
      let* cmake := call (cmd_result "which cmake") in
      let* found :=
        (if (String.length cmake <? 1)%nat then
           let* _ := print_end "cmake not found, try install cmake .." "" in
           let* _ := system "python3 -m pip install cmake>=3.14.0" in
           let* cmake := call (cmd_result "which cmake") in
           let* found :=
             (if (String.length cmake <? 1)%nat then
                let env := export_path in
                let* _ := system env in
                let envs := (envs ++ [env])%list in
                let* cmake := call (cmd_result "which cmake") in
                let* _ :=
                  (if (String.length cmake <? 1)%nat then
                     let* _ := print "Check cmake failed." in
                     exit (-1, envs)%Z
                   else next tt) in
                next (cmake, envs)
              else next (cmake, envs)) in
           let* _ := print "success" in
           next found
         else next (cmake, envs)) in
      let cmake := fst found in
      let envs := snd found in
      (* check make *)
      let* make := call (cmd_result "which make") in
      let* make :=
        (if (String.length make <? 1)%nat then
           let* _ := print_end "make not found, try install make .." "" in
           let* _ := system (sudo ++ " apt update --fix-missing") in
           let* _ := system (sudo ++ " DEBIAN_FRONTEND=" ++ dquote
                             ++ "noninteractive" ++ dquote
                             ++ "  apt install make") in
           let* make := call (cmd_result "which make") in
           let* _ :=
             (if (String.length make <? 1)%nat then
                let* _ := print "Check make failed." in
                exit (-1, envs)%Z
              else next tt) in
           let* _ := print "success" in
           next make
         else next make) in
      (* check g++ version *)
      let* gplus := call (cmd_result "which g++-7") in
      let* gplus :=
        (if (String.length gplus <? 1)%nat then
           let* _ := print_end "g++-7 not found, try install g++-7 .." "" in
           let* _ := system (sudo ++ " DEBIAN_FRONTEND=" ++ dquote
                             ++ "noninteractive" ++ dquote
                             ++ " apt install software-properties-common -y")
           in
           let* _ := system (sudo ++ " apt update") in
           let* old :=
             (if (String.length ubuntu <? 1)%nat then next true
              else let* major := eval (version_major ubuntu) in
                   next (major <=? 18)%Z) in
           let* _ :=
             (if old : bool then
                system (sudo
                        ++ " add-apt-repository ppa:ubuntu-toolchain-r/test -y")
              else next tt) in
           let* _ := system (sudo ++ " apt install gcc-7 g++-7 -y") in
           let* gplus := call (cmd_result "which g++-7") in
           let* _ :=
             (if (String.length gplus <? 1)%nat then
                let* _ := print "Check g++-7 failed." in
                exit (-1, envs)%Z
              else next tt) in
           let* _ := system (sudo ++ " update-alternatives --install "
                             ++ "/usr/bin/gcc gcc /usr/bin/gcc-7 200") in
           let* _ := system (sudo ++ " update-alternatives --install "
                             ++ "/usr/bin/g++ g++ /usr/bin/g++-7 200") in
           let* _ := print "success" in
           next gplus
         else next gplus) in
      (* wget *)
      let* wget := call (simple_check_install "wget" sudo) in
      (* check torch and mmcv, we try to install mmcv, it is not compulsory *)
      let* torch_version := import "torch" in
      let* mmcv_version :=
        match torch_version with
        | Some _ =>
            let* mmcv_version := import "mmcv" in
            match mmcv_version with
            | Some v => next (Some v)
            | None =>
                let* _ := print_end "mmcv not found, try install mmcv .." ""
                in
                let* _ := system "python3 -m pip install -U openmim" in
                let* _ := system "mim install mmcv-full==1.5.1" in
                next None
            end
        | None => next None
        end in
      (* git *)
      let* git := call (simple_check_install "git" sudo) in
      (* unzip *)
      let* unzip := call (simple_check_install "unzip" sudo) in
      (* opencv *)
      let* ocv := call (cmd_result "which opencv_version") in
      let* _ :=
        (if (String.length ocv <? 1)%nat then
           let* _ := print_end "ocv not found, try install git .." "" in
           let* _ := system (sudo ++ " add-apt-repository "
                             ++ "ppa:ignaciovizzo/opencv3-nonfree -y") in
           let* _ := system (sudo ++ " apt update") in
           let* _ := system (sudo ++ " DEBIAN_FRONTEND=" ++ dquote
                             ++ "noninteractive" ++ dquote
                             ++ "  apt install libopencv-dev -y") in
           let* ocv := call (cmd_result "which opencv_version") in
           let* _ :=
             (if (String.length ocv <? 1)%nat then
                let* _ := print "Check ocv failed." in
                exit (-1, envs)%Z
              else next tt) in
           print "success"
         else next tt) in
      (* print all *)
      let* _ := print ("ubuntu " ++ tab ++ tab ++ ":" ++ ubuntu) in
      (* check python *)
      let* python3 := call (cmd_result "which python3") in
      let* _ := print ("python bin" ++ tab ++ ":" ++ python3) in
      let* python_version :=
        call (cmd_result "python3 --version | awk '{print $2}'") in
      let* _ := print ("python version" ++ tab ++ ":" ++ python_version) in
      let* _ := print ("cmake bin" ++ tab ++ ":" ++ cmake) in
      let* cmake_version :=
        call (cmd_result "cmake --version | head -n 1 | awk '{print $3}'") in
      let* _ := print ("cmake version" ++ tab ++ ":" ++ cmake_version) in
      let* _ := print ("make bin" ++ tab ++ ":" ++ make) in
      let* make_version :=
        call (cmd_result " make --version  | head -n 1 | awk '{print $3}' ")
      in
      let* _ := print ("make version" ++ tab ++ ":" ++ make_version) in
      let* _ := print ("wget bin" ++ tab ++ ":" ++ str wget) in
      let* _ := print ("g++-7 bin" ++ tab ++ ":" ++ gplus) in
      let* _ := print ("mmcv version" ++ tab ++ ":" ++ str mmcv_version) in
      let* _ :=
        match mmcv_version with
        | None =>
            let* _ := print (tab ++ " please install an mm serials "
                             ++ "algorithm later.") in
            sleep 2
        | Some _ => next tt
        end in
      let* _ := print ("torch version" ++ tab ++ ":" ++ str torch_version) in
      let* _ :=
        match torch_version with
        | None =>
            let* _ := print (tab ++ " please install pytorch later.") in
            sleep 2
        | Some _ => next tt
        end in
      let* ocv_version := call (cmd_result "opencv_version") in
      let* _ := print ("ocv version" ++ tab ++ ":" ++ ocv_version) in
      let* _ := print ("git bin" ++ tab ++ tab ++ ":" ++ str git) in
      let* git_version :=
        call (cmd_result "git --version | awk '{print $3}' ") in
      let* _ := print ("git version" ++ tab ++ ":" ++ git_version) in
      let* _ := print ("unzip bin" ++ tab ++ ":" ++ str unzip) in
      (* work dir *)
      let* _ := print ("work dir " ++ tab ++ ":" ++ work_dir) in
      (* dep dir *)
      let* _ := print ("dep dir " ++ tab ++ ":" ++ dep_dir) in
      let* _ := print nl in
      exit (0, envs)%Z).

End Host.

(** Every command [ensure_base_env] can pass to [os.system], itself or
    through [simple_check_install], under a given [sudo]. *)
Definition script_commands (sudo : string) : list string :=
  [ "python3 -m ensurepip";
    "python3 -m pip install wheel";
    "python3 -m pip install cmake>=3.14.0";
    export_path;
    sudo ++ " apt update --fix-missing";
    sudo ++ " DEBIAN_FRONTEND=" ++ dquote ++ "noninteractive" ++ dquote
         ++ "  apt install make";
    sudo ++ " DEBIAN_FRONTEND=" ++ dquote ++ "noninteractive" ++ dquote
         ++ " apt install software-properties-common -y";
    sudo ++ " apt update";
    sudo ++ " add-apt-repository ppa:ubuntu-toolchain-r/test -y";
    sudo ++ " apt install gcc-7 g++-7 -y";
    sudo ++ " update-alternatives --install "
         ++ "/usr/bin/gcc gcc /usr/bin/gcc-7 200";
    sudo ++ " update-alternatives --install "
         ++ "/usr/bin/g++ g++ /usr/bin/g++-7 200";
    sudo ++ " apt install wget -y";
    "python3 -m pip install -U openmim";
    "mim install mmcv-full==1.5.1";
    sudo ++ " apt install git -y";
    sudo ++ " apt install unzip -y";
    sudo ++ " add-apt-repository ppa:ignaciovizzo/opencv3-nonfree -y";
    sudo ++ " DEBIAN_FRONTEND=" ++ dquote ++ "noninteractive" ++ dquote
         ++ "  apt install libopencv-dev -y" ].

(** The tools whose absence makes [ensure_base_env] give up, as its
    failure messages name them. *)
Definition mandatory_tools : list string := ["cmake"; "make"; "g++-7"; "ocv"].

(** A trace [t'] extends [t0] by events whose commands are all among
    [script_commands sudo]. *)
Definition runs_listed (sudo : string) (t0 t' : list event) : Prop :=
  exists ext,
    t' = (t0 ++ ext)%list
    /\ Forall (fun cmd => cmd ∈ script_commands sudo) (commands ext).

(** The failure message for a tool is the last thing printed. *)
Definition gave_up (t' : list event) : Prop :=
  exists tool,
    tool ∈ mandatory_tools
    /\ last t' = Some (Print (("Check " ++ tool ++ " failed.") ++ nl)).

(** What [ensure_base_env] guarantees of its outcome [o] and final trace
    [t'] when started on the trace [t0] with [sudo] as computed from
    [whoami]: it has run listed commands only; when it returns, [envs]
    holds at most the one export line and the code is [0], or [-1] right
    after a failure message; when it raises, the exception is the
    [ValueError] of [int] on the release number, right after the
    [apt update] of the g++ stage. *)
Definition script_post (sudo : string) (t0 : list event)
    (o : outcome (Z * list string)) (t' : list event) : Prop :=
  runs_listed sudo t0 t'
  /\ match o with
     | Done (code, envs) =>
         (envs = [] \/ envs = [export_path])
         /\ (code = 0%Z \/ code = (-1)%Z /\ gave_up t')
     | Fail e =>
         e = ValueError /\ last t' = Some (System (sudo ++ " apt update"))
     end.

End Ubuntu.

(** ** Sample hosts and metadata

    Instances of the parameters on which the properties below are run. *)

Module Sample.

(** A host is provisioned or bare: on a provisioned host every tool is
    found and every module is importable, and any [apt] command, or the
    installation of cmake through pip, provisions the host. *)
Definition popen_read (cmd : string) (w : bool) : string * bool :=
  (if String.prefix "which " cmd
   then (if w then "/usr/bin/" ++ String.substring 6 (String.length cmd) cmd
                   ++ Ubuntu.nl
         else "")
   else if String.eqb cmd "nproc" then "8" ++ Ubuntu.nl
   else if String.eqb cmd "whoami" then "root" ++ Ubuntu.nl
   else if String.eqb cmd Ubuntu.lsb_release then "18.04" ++ Ubuntu.nl
   else "",
   w).

Definition os_system (cmd : string) (w : bool) : bool :=
  w || Ubuntu.contains "apt " cmd || Ubuntu.contains "cmake" cmd.

Definition import_version (name : string) (w : bool) : option string * bool :=
  (if w then Some "1.5.1" else None, w).

(** A host on which nothing can be installed and whose release is not a
    number. *)
Definition popen_rolling (cmd : string) (w : unit) : string * unit :=
  (if String.prefix "which g++-7" cmd then ""
   else if String.eqb cmd Ubuntu.lsb_release then "rolling" ++ Ubuntu.nl
   else "/usr/bin/tool" ++ Ubuntu.nl,
   w).

Definition system_nothing (cmd : string) (w : unit) : unit := w.

(** A host on which no command prints anything. *)
Definition popen_nothing (cmd : string) (w : unit) : string * unit := ("", w).


Definition import_nothing (name : string) (w : unit) : option string * unit :=
  (None, w).

(** The value of a string of decimal digits, [None] for any other string:
    what [int] gives on the strings of the samples. *)
Fixpoint digits (acc : Z) (s : string) : option Z :=
  match s with
  | EmptyString => Some acc
  | String c s' =>
      let n := Ascii.nat_of_ascii c in
      if ((48 <=? n) && (n <=? 57))%nat
      then digits (10 * acc + Z.of_nat (n - 48)) s'
      else None
  end.

Definition int (s : string) : option Z :=
  match s with
  | EmptyString => None
  | _ => digits 0 s
  end.

(** The script on the host where nothing is found, on the host whose
    release is not a number, and on the host where everything is found. *)
Definition stuck_run :=
  Ubuntu.ensure_base_env popen_nothing system_nothing import_nothing int
    "work" "deps" tt [].

Definition rolling_run :=
  Ubuntu.ensure_base_env popen_rolling system_nothing import_nothing int
    "work" "deps" tt [].


Definition get_job := Ubuntu.get_job popen_read int.
Definition simple_check_install :=
  Ubuntu.simple_check_install popen_read os_system.
Definition ensure_base_env :=
  Ubuntu.ensure_base_env popen_read os_system import_version int.

(** Metadata whose [input_names] entry is a number, and metadata whose
    entry is a single name given as a string. *)
Definition cfg_number : Example.DeployCfg :=
  Example.mkCfg {[ "input_names" := VInt 1 ]} ∅ None.

Definition cfg_string : Example.DeployCfg :=
  Example.mkCfg {[ "input_names" := VStr "data" ]} ∅ None.

(** An adapter whose [destroy] fails when it is run a second time. *)
Definition fragile : Wrapper :=
  mkWrapper (Some (fun k => match k with
                            | O => Return tt
                            | S _ => Raise (RuntimeError "already released")
                            end)).

Definition bound_fragile : Heap :=
  mkHeap (mkModel (VStr "input") (VList ["output"]) (Some fragile)) 1.

End Sample.

(** ** The dispatch table read backwards *)

(** The backend whose branch of [_build_wrapper] calls a given adapter
    class. *)
Definition wrapper_backend (c : WrapperCall) : Backend :=
  match c with
  | ORTWrapper _ _ _ => ONNXRUNTIME
  | TRTWrapper _ _ => TENSORRT
  | PPLNNWrapper _ _ _ _ => PPLNN
  | NCNNWrapper _ _ _ _ => NCNN
  | OpenVINOWrapper _ _ => OPENVINO
  | SDKWrapper _ _ _ => SDK
  | TorchscriptWrapper _ _ _ => TORCHSCRIPT
  | AscendWrapper _ _ => ASCEND
  | SNPEWrapper _ _ _ => SNPE
  end.

(** The branches whose adapter call carries the [device] argument. *)
Definition forwards_device (backend : Backend) : bool :=
  match backend with
  | ONNXRUNTIME | PPLNN | SDK | ASCEND => true
  | _ => false
  end.

(** ** Properties of the factory *)

(** Unfolds one run of the factory down to the adapter call. *)
Ltac run_build :=
  cbv [_build_wrapper bind lift ret raise new index task_map_item dict_item
       dict_get];
  simpl.

Section FactoryProperties.

Context {Config Task : Type}.
Variable cfg_bool : Config -> bool.
Variable get_backend_config : Config -> gmap string pyval.
Variable get_task_type : Config -> result Task.
Variable SDK_TASK_MAP : Task -> option (gmap string pyval).
Variable construct : WrapperCall -> result Wrapper.

Abbreviation build :=
  (_build_wrapper cfg_bool get_backend_config get_task_type SDK_TASK_MAP
     construct).
Abbreviation call := (new construct).

(** C1, as amended.  For every backend of the dispatch table, building with
    one artifact path fewer than the branch reads raises [IndexError], the
    missing-artifact kind, and calls no adapter constructor; for the SDK
    backend this holds when the deployment metadata is supplied and its
    task type resolves to an entry of the task table with a class name,
    because that branch checks its metadata before it reads a path. *)
Theorem build_one_fewer_missing_artifact
    (backend : Backend) (n : nat) (files : list string) (device : string)
    (ins outs : option (list string)) (deploy_cfg : option Config)
    (kwargs : gmap string pyval) (log : list WrapperCall) :
  required_files backend = Some n ->
  length files + 1 = n ->
  (backend = SDK ->
   exists cfg task entry name,
     deploy_cfg = Some cfg /\ get_task_type cfg = Return task /\
     SDK_TASK_MAP task = Some entry /\ entry !! "cls_name" = Some name) ->
  build backend files device ins outs deploy_cfg kwargs log
    = (Raise IndexError, log)
  /\ error_kind IndexError = Some MissingArtifact.
Proof.
  intros Hreq Hlen Hsdk. split; [|reflexivity].
  destruct backend; simpl in Hreq; try discriminate;
    injection Hreq as Hn; rewrite <- Hn in Hlen; clear Hn;
    try (destruct files as [|f0 files]; [|simpl in Hlen; lia];
         try (run_build; reflexivity)).
  - (* NCNN: the first path is there, the second is not *)
    destruct files as [|f0 [|f1 files]]; simpl in Hlen; try lia.
    run_build. reflexivity.
  - (* SDK: the metadata resolves, then the path is missing *)
    destruct (Hsdk eq_refl) as (cfg & task & entry & name & -> & Ht & Hm & Hc).
    run_build. rewrite Ht, Hm, Hc. reflexivity.
Qed.

(** X1.  With exactly the number of paths a branch reads, and resolving metadata
    in the SDK case, the factory reaches the adapter constructor and calls
    it once: [required_files] is the exact threshold of the branches. *)
Theorem build_required_files_calls_constructor
    (backend : Backend) (n : nat) (files : list string) (device : string)
    (ins outs : option (list string)) (deploy_cfg : option Config)
    (kwargs : gmap string pyval) (log : list WrapperCall) :
  required_files backend = Some n ->
  length files = n ->
  (backend = SDK ->
   exists cfg task entry name,
     deploy_cfg = Some cfg /\ get_task_type cfg = Return task /\
     SDK_TASK_MAP task = Some entry /\ entry !! "cls_name" = Some name) ->
  exists c,
    build backend files device ins outs deploy_cfg kwargs log = call c log.
Proof.
  intros Hreq Hlen Hsdk.
  destruct backend; simpl in Hreq; try discriminate;
    injection Hreq as Hn; rewrite <- Hn in Hlen; clear Hn;
    try (destruct files as [|f0 [|f1 files]]; try discriminate Hlen;
         eexists; run_build; reflexivity).
  (* SDK is left: the metadata resolves first *)
  destruct (Hsdk eq_refl) as (cfg & task & entry & name & -> & Ht & Hm & Hc).
  destruct files as [|f0 [|f1 files]]; try discriminate Hlen.
  eexists. run_build. rewrite Ht, Hm, Hc. reflexivity.
Qed.

(** C2.  For every backend outside the dispatch table, whatever the other
    arguments are, the factory raises [NotImplementedError], the
    unsupported-backend kind, and calls no adapter constructor. *)
Theorem build_outside_table_unsupported
    (backend : Backend) (files : list string) (device : string)
    (ins outs : option (list string)) (deploy_cfg : option Config)
    (kwargs : gmap string pyval) (log : list WrapperCall) :
  required_files backend = None ->
  exists msg,
    build backend files device ins outs deploy_cfg kwargs log
      = (Raise (NotImplementedError msg), log)
    /\ error_kind (NotImplementedError msg) = Some UnsupportedBackend.
Proof.
  intros Hreq. destruct backend; simpl in Hreq; try discriminate.
  eexists. split; reflexivity.
Qed.

(** C5.  Building the SDK backend without deployment metadata fails the
    assertion that guards the branch: the error is of the
    missing-configuration kind, it is raised once, before any adapter
    constructor is called, so no adapter exists afterwards. *)
Theorem build_sdk_without_cfg
    (files : list string) (device : string)
    (ins outs : option (list string))
    (kwargs : gmap string pyval) (log : list WrapperCall) :
  build SDK files device ins outs None kwargs log
    = (Raise (AssertionError "Building SDKWrapper requires deploy_cfg"), log)
  /\ error_kind (AssertionError "Building SDKWrapper requires deploy_cfg")
     = Some MissingConfiguration.
Proof. split; reflexivity. Qed.

(** C6.  In the NCNN branch the adapter is built with [use_vulkan = False]
    when no deployment metadata is supplied or the metadata holds no
    [use_vulkan] entry, and with the entry's value, unchanged, when
    supplied metadata holds one. *)
Theorem build_ncnn_use_vulkan
    (param_file bin_file : string) (rest : list string) (device : string)
    (ins outs : option (list string)) (deploy_cfg : option Config)
    (kwargs : gmap string pyval) (log : list WrapperCall)
    (use_vulkan : pyval) :
  (deploy_cfg = None /\ use_vulkan = VBool false)
  \/ (exists cfg, deploy_cfg = Some cfg
        /\ get_backend_config cfg !! "use_vulkan" = None
        /\ use_vulkan = VBool false)
  \/ (exists cfg, deploy_cfg = Some cfg /\ cfg_bool cfg = true
        /\ get_backend_config cfg !! "use_vulkan" = Some use_vulkan) ->
  build NCNN (param_file :: bin_file :: rest) device ins outs deploy_cfg
    kwargs log
  = call (NCNNWrapper param_file bin_file outs use_vulkan) log.
Proof.
  intros [[-> ->] | [(cfg & -> & Hflag & ->) | (cfg & -> & Hb & Hflag)]];
    run_build.
  - reflexivity.
  - rewrite Hflag. destruct (cfg_bool cfg); reflexivity.
  - rewrite Hb, Hflag. reflexivity.
Qed.

(** C7.  In the PPLNN branch a second artifact path, when there is one, is
    passed as [algo_file]; with exactly one path the constructor is called
    all the same, with [algo_file = None], and the factory returns the
    adapter it yields. *)
Theorem build_pplnn_algo_file
    (onnx_file : string) (device : string)
    (ins outs : option (list string)) (deploy_cfg : option Config)
    (kwargs : gmap string pyval) (log : list WrapperCall) :
  (forall algo rest,
     build PPLNN (onnx_file :: algo :: rest) device ins outs deploy_cfg
       kwargs log
     = call (PPLNNWrapper onnx_file (Some algo) device outs) log)
  /\ build PPLNN [onnx_file] device ins outs deploy_cfg kwargs log
     = call (PPLNNWrapper onnx_file None device outs) log
  /\ (forall w,
        construct (PPLNNWrapper onnx_file None device outs) = Return w ->
        fst (build PPLNN [onnx_file] device ins outs deploy_cfg kwargs log)
        = Return w).
Proof.
  split; [|split].
  - intros algo rest. reflexivity.
  - reflexivity.
  - intros w Hw. run_build. exact Hw.
Qed.

(** C10.  In the SNPE branch, when the keyword options hold no [uri], the
    constructor is called with [uri = None] and the factory returns the
    adapter it yields; the absent key raises nothing. *)
Theorem build_snpe_uri_default
    (dlc_file : string) (rest : list string) (device : string)
    (ins outs : option (list string)) (deploy_cfg : option Config)
    (kwargs : gmap string pyval) (log : list WrapperCall) :
  kwargs !! "uri" = None ->
  build SNPE (dlc_file :: rest) device ins outs deploy_cfg kwargs log
    = call (SNPEWrapper dlc_file VNone outs) log
  /\ (forall w,
        construct (SNPEWrapper dlc_file VNone outs) = Return w ->
        fst (build SNPE (dlc_file :: rest) device ins outs deploy_cfg
               kwargs log)
        = Return w).
Proof.
  intros Huri. run_build. rewrite Huri. split; [reflexivity|].
  intros w Hw. exact Hw.
Qed.

End FactoryProperties.

(** ** Properties of the constructor *)

Section InitProperties.

Context {Config : Type}.
Variable get_ir_config : Config -> gmap string pyval.

(** C4, as amended.  Construction resolves both names from the metadata
    alone: [input_name] is the first declared input name, or ['input'] when
    none is declared or the declared list is empty; [output_names] is the
    declared list of output names, unchanged, or [['output']] when none is
    declared or the declared list is empty. *)
Theorem init_resolves_names
    (deploy_cfg : option Config) (ins outs : option (list string)) :
  declares get_ir_config deploy_cfg ins outs ->
  __init__ get_ir_config deploy_cfg
  = Return {| input_name :=
                VStr (match ins with Some (x :: _) => x | _ => "input" end);
              output_names :=
                VList (match outs with
                       | Some (y :: l) => y :: l
                       | _ => ["output"]
                       end);
              wrapper := None |}.
Proof.
  unfold declares, __init__, dict_get.
  destruct deploy_cfg as [cfg|].
  - intros [-> ->].
    destruct ins as [[|x ins]|], outs as [[|y outs]|]; reflexivity.
  - intros [-> ->]. reflexivity.
Qed.

End InitProperties.

(** ** Properties of [destroy] *)

(** C3, as amended.  On a facade whose adapter has a [destroy], every call
    of the facade's [destroy] runs the adapter's routine exactly once and
    ends as the routine ends, leaving the instance as it was; the facade
    keeps no record of a teardown, so a second call, made after the first
    has returned, runs the routine a second time. *)
Theorem destroy_runs_adapter_each_call
    (h : Heap) (w : Wrapper) (body : nat -> result unit) :
  wrapper (self h) = Some w ->
  destroy_attr w = Some body ->
  destroy h
    = (body (destroy_calls h),
       {| self := self h; destroy_calls := S (destroy_calls h) |})
  /\ (body (destroy_calls h) = Return tt ->
      destroy_twice h
      = (body (S (destroy_calls h)),
         {| self := self h; destroy_calls := S (S (destroy_calls h)) |})).
Proof.
  intros Hw Hd.
  assert (Hone : forall k,
             destroy {| self := self h; destroy_calls := k |}
             = (body k, {| self := self h; destroy_calls := S k |})).
  { intros k. unfold destroy. simpl. rewrite Hw, Hd. reflexivity. }
  assert (Hh : h = {| self := self h; destroy_calls := destroy_calls h |})
    by (destruct h; reflexivity).
  split.
  - rewrite Hh at 1. apply Hone.
  - intros Hret. unfold destroy_twice.
    rewrite Hh at 1. rewrite Hone, Hret. apply Hone.
Qed.

(** C8.  On a facade whose adapter has no [destroy], the facade's [destroy]
    returns normally and leaves the whole store as it was: the adapter, the
    two names, and no adapter routine has run. *)
Theorem destroy_without_capability (h : Heap) (w : Wrapper) :
  wrapper (self h) = Some w ->
  destroy_attr w = None ->
  destroy h = (Return tt, h).
Proof.
  intros Hw Hd. unfold destroy. rewrite Hw, Hd. reflexivity.
Qed.

(** C9.  On an instance whose [wrapper] attribute was never bound,
    [destroy] returns normally, runs no adapter routine and leaves the
    store as it was. *)
Theorem destroy_without_wrapper (h : Heap) :
  wrapper (self h) = None ->
  destroy h = (Return tt, h).
Proof.
  intros Hw. unfold destroy. rewrite Hw. reflexivity.
Qed.

(** ** The properties at concrete inputs *)

Lemma build_one_fewer_missing_artifact_witness :
  Example.build SDK [] "cpu" None None (Some Example.cfg_sdk) ∅ []
    = (Raise IndexError, [])
  /\ error_kind IndexError = Some MissingArtifact.
Proof.
  apply (build_one_fewer_missing_artifact
           Example.cfg_bool Example.cfg_backend Example.get_task_type
           Example.SDK_TASK_MAP Example.construct
           SDK 1 [] "cpu" None None (Some Example.cfg_sdk) ∅ []).
  - reflexivity.
  - reflexivity.
  - intros _.
    exists Example.cfg_sdk, "Classification",
      {[ "component" := VStr "Classifier"; "cls_name" := VStr "Classifier" ]},
      (VStr "Classifier").
    repeat split; vm_compute; reflexivity.
Defined.

(** C1, as stated, fails for the SDK backend built without metadata and
    with no artifact path, one fewer than the one it reads: the assertion
    on the metadata fires first, and its kind is not the missing-artifact
    kind. *)
Lemma build_sdk_one_fewer_counterexample :
  required_files SDK = Some 1
  /\ length ([] : list string) + 1 = 1
  /\ fst (Example.build SDK [] "cpu" None None None ∅ [])
     = Raise (AssertionError "Building SDKWrapper requires deploy_cfg")
  /\ error_kind (AssertionError "Building SDKWrapper requires deploy_cfg")
     <> Some MissingArtifact.
Proof. repeat split; try reflexivity. discriminate. Qed.

Lemma build_required_files_calls_constructor_witness :
  exists c,
    Example.build NCNN ["net.param"; "net.bin"] "cpu" None None None ∅ []
    = new Example.construct c [].
Proof.
  apply (build_required_files_calls_constructor
           Example.cfg_bool Example.cfg_backend Example.get_task_type
           Example.SDK_TASK_MAP Example.construct
           NCNN 2 ["net.param"; "net.bin"] "cpu" None None None ∅ []).
  - reflexivity.
  - reflexivity.
  - intros H. discriminate H.
Defined.

Lemma build_outside_table_unsupported_witness :
  exists msg,
    Example.build (OtherBackend "pytorch") ["end2end.onnx"] "cuda:0"
      (Some ["input"]) None (Some Example.cfg_xy) {[ "uri" := VStr "host" ]} []
    = (Raise (NotImplementedError msg), [])
    /\ error_kind (NotImplementedError msg) = Some UnsupportedBackend.
Proof.
  apply (build_outside_table_unsupported
           Example.cfg_bool Example.cfg_backend Example.get_task_type
           Example.SDK_TASK_MAP Example.construct (OtherBackend "pytorch")).
  reflexivity.
Defined.

Lemma build_ncnn_use_vulkan_witness :
  Example.build NCNN ["net.param"; "net.bin"] "cpu" None None
    (Some Example.cfg_xy) ∅ []
  = new Example.construct
      (NCNNWrapper "net.param" "net.bin" None (VBool false)) [].
Proof.
  apply (build_ncnn_use_vulkan
           Example.cfg_bool Example.cfg_backend Example.get_task_type
           Example.SDK_TASK_MAP Example.construct).
  right. left. exists Example.cfg_xy.
  repeat split; vm_compute; reflexivity.
Defined.

Lemma build_snpe_uri_default_witness :
  Example.build SNPE ["net.dlc"] "cpu" None None None ∅ []
    = new Example.construct (SNPEWrapper "net.dlc" VNone None) []
  /\ (forall w,
        Example.construct (SNPEWrapper "net.dlc" VNone None) = Return w ->
        fst (Example.build SNPE ["net.dlc"] "cpu" None None None ∅ [])
        = Return w).
Proof.
  apply (build_snpe_uri_default
           Example.cfg_bool Example.cfg_backend Example.get_task_type
           Example.SDK_TASK_MAP Example.construct
           "net.dlc" [] "cpu" None None None ∅ []).
  vm_compute. reflexivity.
Defined.

Lemma init_resolves_names_witness :
  Example.init (Some Example.cfg_xy)
  = Return {| input_name := VStr "x";
              output_names := VList ["output"];
              wrapper := None |}.
Proof.
  apply (init_resolves_names Example.cfg_ir (Some Example.cfg_xy)
           (Some ["x"; "y"]) None).
  split; vm_compute; reflexivity.
Defined.

(** C4, as stated, fails on metadata that declares an empty list of output
    names: the list is supplied, and [output_names] is not that list but
    the default. *)
Lemma init_empty_outputs_counterexample :
  Example.cfg_ir Example.cfg_no_outputs !! "output_names" = Some (VList [])
  /\ Example.init (Some Example.cfg_no_outputs)
     = Return {| input_name := VStr "input";
                 output_names := VList ["output"];
                 wrapper := None |}
  /\ VList ["output"] <> VList [].
Proof. repeat split; try (vm_compute; reflexivity). discriminate. Qed.

Lemma destroy_runs_adapter_each_call_witness :
  destroy Example.bound
    = (Return tt,
       {| self := self Example.bound; destroy_calls := 1 |})
  /\ (Return tt = Return tt ->
      destroy_twice Example.bound
      = (Return tt,
         {| self := self Example.bound; destroy_calls := 2 |})).
Proof.
  apply (destroy_runs_adapter_each_call Example.bound Example.releasable
           (fun _ => Return tt)); reflexivity.
Defined.

(** C3, as stated, fails on a bound facade whose adapter has a [destroy]
    that always returns: two calls in sequence both return, and the
    adapter's routine has run twice, not once. *)
Lemma destroy_twice_counterexample :
  wrapper (self Example.bound) = Some Example.releasable
  /\ destroy_attr Example.releasable = Some (fun _ => Return tt)
  /\ fst (destroy_twice Example.bound) = Return tt
  /\ destroy_calls (snd (destroy_twice Example.bound))
     = destroy_calls Example.bound + 2
  /\ destroy_calls (snd (destroy_twice Example.bound))
     <> destroy_calls Example.bound + 1.
Proof.
  repeat split; try reflexivity. vm_compute. discriminate.
Qed.

Lemma destroy_without_capability_witness :
  destroy Example.bound_plain = (Return tt, Example.bound_plain).
Proof.
  apply (destroy_without_capability Example.bound_plain Example.plain);
    reflexivity.
Defined.

Lemma destroy_without_wrapper_witness :
  destroy Example.unbound = (Return tt, Example.unbound).
Proof.
  apply (destroy_without_wrapper Example.unbound). reflexivity.
Defined.

(** ** Further properties of the factory *)

Section FactoryFrame.

Context {Config Task : Type}.
Variable cfg_bool : Config -> bool.
Variable get_backend_config : Config -> gmap string pyval.
Variable get_task_type : Config -> result Task.
Variable SDK_TASK_MAP : Task -> option (gmap string pyval).
Variable construct : WrapperCall -> result Wrapper.

Abbreviation build :=
  (_build_wrapper cfg_bool get_backend_config get_task_type SDK_TASK_MAP
     construct).
Abbreviation call := (new construct).

(** X2.  Every run of the factory either raises before any adapter class is
    called, leaving the log as it was, or calls exactly one adapter class,
    that of the branch taken, and ends as that call ends: an adapter it
    returns was built by this very run, and an exception of the adapter
    class comes out unchanged. *)
Theorem build_calls_at_most_one_constructor
    (backend : Backend) (files : list string) (device : string)
    (ins outs : option (list string)) (deploy_cfg : option Config)
    (kwargs : gmap string pyval) (log : list WrapperCall) :
  (exists e,
     build backend files device ins outs deploy_cfg kwargs log
     = (Raise e, log))
  \/ (exists c,
        wrapper_backend c = backend
        /\ build backend files device ins outs deploy_cfg kwargs log
           = (construct c, (log ++ [c])%list)).
Proof.
  destruct backend; run_build;
    try (destruct files as [|f0 [|f1 files]]; simpl;
         solve [ left; eexists; reflexivity
               | right; eexists; split; [|reflexivity]; reflexivity ]).
  (* the SDK branch is left: its metadata is resolved step by step *)
  destruct deploy_cfg as [cfg|]; [|left; eexists; reflexivity].
  destruct (get_task_type cfg) as [task|e]; [|left; eexists; reflexivity].
  destruct (SDK_TASK_MAP task) as [entry|]; [|left; eexists; reflexivity].
  destruct (entry !! "cls_name") as [name|]; [|left; eexists; reflexivity].
  destruct files as [|f0 files]; simpl; [left; eexists; reflexivity|].
  right. eexists. split; [|reflexivity]. reflexivity.
Qed.

(** X3.  The artifact paths after the second are never read: the factory
    behaves on any list of paths as on its first two elements. *)
Theorem build_reads_two_files_at_most
    (backend : Backend) (files : list string) (device : string)
    (ins outs : option (list string)) (deploy_cfg : option Config)
    (kwargs : gmap string pyval) (log : list WrapperCall) :
  build backend files device ins outs deploy_cfg kwargs log
  = build backend (take 2 files) device ins outs deploy_cfg kwargs log.
Proof.
  destruct files as [|f0 [|f1 files]]; reflexivity.
Qed.

(** X4.  The branches for TensorRT, ncnn, OpenVINO, TorchScript and SNPE, and
    the final [else], do not look at [device]. *)
Theorem build_ignores_device
    (backend : Backend) (files : list string) (device device' : string)
    (ins outs : option (list string)) (deploy_cfg : option Config)
    (kwargs : gmap string pyval) (log : list WrapperCall) :
  forwards_device backend = false ->
  build backend files device ins outs deploy_cfg kwargs log
  = build backend files device' ins outs deploy_cfg kwargs log.
Proof.
  intros Hdev. destruct backend; try discriminate Hdev; reflexivity.
Qed.

(** X5.  Only the TorchScript branch looks at [input_names]. *)
Theorem build_ignores_input_names
    (backend : Backend) (files : list string) (device : string)
    (ins ins' outs : option (list string)) (deploy_cfg : option Config)
    (kwargs : gmap string pyval) (log : list WrapperCall) :
  backend <> TORCHSCRIPT ->
  build backend files device ins outs deploy_cfg kwargs log
  = build backend files device ins' outs deploy_cfg kwargs log.
Proof.
  intros Hb. destruct backend; try reflexivity. contradiction.
Qed.

(** X6.  Only the ncnn and SDK branches look at the deployment metadata. *)
Theorem build_ignores_deploy_cfg
    (backend : Backend) (files : list string) (device : string)
    (ins outs : option (list string)) (deploy_cfg deploy_cfg' : option Config)
    (kwargs : gmap string pyval) (log : list WrapperCall) :
  backend <> NCNN -> backend <> SDK ->
  build backend files device ins outs deploy_cfg kwargs log
  = build backend files device ins outs deploy_cfg' kwargs log.
Proof.
  intros Hn Hs. destruct backend; try reflexivity; contradiction.
Qed.

(** X7.  Of the keyword options only [uri] is read, and only by the SNPE
    branch: two option dictionaries that agree on [uri] give the same
    run, and outside the SNPE branch any two do. *)
Theorem build_reads_only_uri
    (backend : Backend) (files : list string) (device : string)
    (ins outs : option (list string)) (deploy_cfg : option Config)
    (kwargs kwargs' : gmap string pyval) (log : list WrapperCall) :
  (backend = SNPE -> kwargs !! "uri" = kwargs' !! "uri") ->
  build backend files device ins outs deploy_cfg kwargs log
  = build backend files device ins outs deploy_cfg kwargs' log.
Proof.
  intros Huri. destruct backend; try reflexivity.
  run_build. rewrite (Huri eq_refl). reflexivity.
Qed.

(** X8.  In the SDK branch a failure to resolve the class name comes before any
    artifact path is read: the exception of [get_task_type], or [KeyError]
    for a task type missing from the table or a table entry without
    [cls_name], is raised whatever the artifact paths are, and no adapter
    class is called. *)
Theorem build_sdk_unresolved_task
    (files : list string) (device : string)
    (ins outs : option (list string)) (cfg : Config)
    (kwargs : gmap string pyval) (log : list WrapperCall) (e : pyexc) :
  get_task_type cfg = Raise e
  \/ (exists task, get_task_type cfg = Return task
        /\ SDK_TASK_MAP task = None /\ e = KeyError)
  \/ (exists task entry, get_task_type cfg = Return task
        /\ SDK_TASK_MAP task = Some entry
        /\ entry !! "cls_name" = None /\ e = KeyError) ->
  build SDK files device ins outs (Some cfg) kwargs log = (Raise e, log).
Proof.
  intros [Ht | [(task & Ht & Hm & ->) | (task & entry & Ht & Hm & Hc & ->)]];
    run_build; rewrite Ht; try rewrite Hm; try rewrite Hc; reflexivity.
Qed.

(** In the SNPE branch a [uri] keyword option is passed to the adapter
    class unchanged. *)
Theorem build_snpe_uri_forwarded
    (dlc_file : string) (rest : list string) (device : string)
    (ins outs : option (list string)) (deploy_cfg : option Config)
    (kwargs : gmap string pyval) (log : list WrapperCall) (uri : pyval) :
  kwargs !! "uri" = Some uri ->
  build SNPE (dlc_file :: rest) device ins outs deploy_cfg kwargs log
  = call (SNPEWrapper dlc_file uri outs) log.
Proof.
  intros Huri. run_build. rewrite Huri. reflexivity.
Qed.

End FactoryFrame.

(** ** Further properties of the constructor and of [destroy] *)

Section InitFrame.

Context {Config : Type}.
Variable get_ir_config : Config -> gmap string pyval.

(** X9.  An instance that the constructor returns never has an empty or absent
    [output_names], and its [wrapper] attribute is not bound yet. *)
Theorem init_output_names_truthy
    (deploy_cfg : option Config) (m : BaseBackendModel) :
  __init__ get_ir_config deploy_cfg = Return m ->
  truthy (output_names m) = true /\ wrapper m = None.
Proof.
  unfold __init__, rbind.
  destruct deploy_cfg as [cfg|]; simpl.
  - destruct (truthy (dict_get (get_ir_config cfg) "input_names" VNone));
      [destruct (getitem0 _); [|discriminate]|];
      intros [= <-]; simpl;
      (destruct (truthy (dict_get (get_ir_config cfg) "output_names" VNone))
         eqn:Hout; [rewrite Hout; auto | auto]).
  - intros [= <-]. auto.
Qed.

(** X10.  The constructor raises only [TypeError], and exactly when the metadata
    declares as [input_names] a true boolean or a number other than zero:
    the test on [input_names] keeps the subscript away from [None] and
    from empty sequences, so [IndexError] never comes out of it. *)
Theorem init_raises_iff_not_subscriptable
    (deploy_cfg : option Config) (e : pyexc) :
  __init__ get_ir_config deploy_cfg = Raise e
  <-> e = TypeError
      /\ exists cfg, deploy_cfg = Some cfg
           /\ (get_ir_config cfg !! "input_names" = Some (VBool true)
               \/ exists n, n <> 0%Z
                    /\ get_ir_config cfg !! "input_names" = Some (VInt n)).
Proof.
  unfold __init__, rbind, dict_get. split.
  - destruct deploy_cfg as [cfg|]; simpl; [|discriminate].
    destruct (get_ir_config cfg !! "input_names") as [v|] eqn:Hin;
      [|discriminate].
    destruct v as [|[]|n|[|c s]|[|x l]]; simpl; try discriminate.
    + intros [= <-]. split; [reflexivity|]. exists cfg. auto.
    + destruct (n =? 0)%Z eqn:Hn; simpl; [discriminate|].
      intros [= <-]. split; [reflexivity|]. exists cfg.
      split; [reflexivity|]. right. exists n. split; [lia|exact Hin].
  - intros (-> & cfg & -> & [Hin | (n & Hn & Hin)]); simpl; rewrite Hin; simpl.
    + reflexivity.
    + destruct (n =? 0)%Z eqn:Hz; [lia|]. reflexivity.
Qed.

(** X11.  When the metadata gives [input_names] as a single string and not as a
    list, the constructor takes its first character as the input name. *)
Theorem init_string_input_names
    (cfg : Config) (c : Ascii.ascii) (s : string) :
  get_ir_config cfg !! "input_names" = Some (VStr (String c s)) ->
  exists m,
    __init__ get_ir_config (Some cfg) = Return m
    /\ input_name m = VStr (String c "").
Proof.
  intros Hin. unfold __init__, rbind, dict_get. simpl. rewrite Hin. simpl.
  eexists. split; reflexivity.
Qed.

(** On an instance fresh from the base constructor, [destroy] returns
    normally, runs no adapter routine and changes nothing. *)
Theorem init_then_destroy
    (deploy_cfg : option Config) (m : BaseBackendModel) (k : nat) :
  __init__ get_ir_config deploy_cfg = Return m ->
  destroy (mkHeap m k) = (Return tt, mkHeap m k).
Proof.
  intros Hm.
  assert (Hw : wrapper m = None).
  { revert Hm. unfold __init__, rbind.
    destruct (if truthy _ then _ else _); [|discriminate].
    intros [= <-]. reflexivity. }
  unfold destroy. simpl. rewrite Hw. reflexivity.
Qed.

End InitFrame.

(** X12.  [destroy] never changes the instance, so the adapter stays bound after
    it, and it runs the adapter's routine at most once. *)
Theorem destroy_keeps_instance (h : Heap) :
  self (snd (destroy h)) = self h
  /\ destroy_calls h <= destroy_calls (snd (destroy h))
  /\ destroy_calls (snd (destroy h)) <= S (destroy_calls h).
Proof.
  unfold destroy.
  destruct (wrapper (self h)) as [w|]; [destruct (destroy_attr w)|];
    simpl; repeat split; lia.
Qed.

(** X13.  [destroy] raises exactly what the adapter's routine raises: an
    exception comes out of it if and only if the bound adapter has a
    [destroy] whose run raises that exception. *)
Theorem destroy_raises_iff_adapter_raises (h : Heap) (e : pyexc) :
  fst (destroy h) = Raise e
  <-> exists w body,
        wrapper (self h) = Some w /\ destroy_attr w = Some body
        /\ body (destroy_calls h) = Raise e.
Proof.
  unfold destroy. split.
  - destruct (wrapper (self h)) as [w|]; [|discriminate].
    destruct (destroy_attr w) as [body|] eqn:Hd; [|discriminate].
    simpl. intros Hb. exists w, body. auto.
  - intros (w & body & -> & -> & Hb). exact Hb.
Qed.

(** * Properties of the provisioning helpers *)

(** ** Splitting and stripping *)

Lemma has_char_app (c : Ascii.ascii) (a b : string) :
  Ubuntu.has_char c (a ++ b)
  = Ubuntu.has_char c a || Ubuntu.has_char c b.
Proof.
  induction a as [|d a IH]; simpl; [reflexivity|].
  rewrite IH. apply orb_assoc.
Qed.

Lemma split_not_nil (sep : Ascii.ascii) (s : string) :
  exists piece pieces, Ubuntu.split sep s = piece :: pieces.
Proof.
  induction s as [|c s (piece & pieces & IH)]; simpl; [eauto|].
  destruct (Ascii.eqb c sep); [eauto|]. rewrite IH. eauto.
Qed.

Lemma split_without_sep (sep : Ascii.ascii) (a : string) :
  Ubuntu.has_char sep a = false -> Ubuntu.split sep a = [a].
Proof.
  induction a as [|c a IH]; simpl; [reflexivity|].
  intros [Hc Ha]%orb_false_elim. rewrite Hc, (IH Ha). reflexivity.
Qed.

Lemma split_at_first_sep (sep : Ascii.ascii) (a rest : string) :
  Ubuntu.has_char sep a = false ->
  Ubuntu.split sep (a ++ String sep rest) = a :: Ubuntu.split sep rest.
Proof.
  induction a as [|c a IH]; simpl.
  - intros _. rewrite Ascii.eqb_refl. reflexivity.
  - intros [Hc Ha]%orb_false_elim. rewrite Hc, (IH Ha). reflexivity.
Qed.

Lemma split_second_piece (sep : Ascii.ascii) (s : string) :
  Ubuntu.split sep s !! 1 = None <-> Ubuntu.has_char sep s = false.
Proof.
  induction s as [|c s IH]; simpl; [tauto|].
  destruct (Ascii.eqb c sep) eqn:Hc; simpl.
  - destruct (split_not_nil sep s) as (p & ps & ->). simpl.
    split; discriminate.
  - destruct (split_not_nil sep s) as (p & ps & Hs).
    rewrite Hs in *. simpl in *. exact IH.
Qed.

Lemma split_pieces_without_sep (sep : Ascii.ascii) (s : string) :
  Forall (fun piece => Ubuntu.has_char sep piece = false)
    (Ubuntu.split sep s).
Proof.
  induction s as [|c s IH]; simpl.
  - repeat constructor.
  - destruct (Ascii.eqb c sep) eqn:Hc.
    + constructor; [reflexivity | exact IH].
    + destruct (Ubuntu.split sep s) as [|p ps]; simpl.
      * repeat constructor. simpl. rewrite Hc. reflexivity.
      * inversion IH as [|? ? Hp Hps]; subst.
        constructor; [|exact Hps]. simpl. rewrite Hc, Hp. reflexivity.
Qed.


Lemma lstrip_empty_iff_blank (s : string) :
  Ubuntu.lstrip s = "" <-> Ubuntu.blank s = true.
Proof.
  induction s as [|d s IH]; simpl; [tauto|].
  destruct (Ubuntu.isspace d); simpl; [exact IH|].
  split; discriminate.
Qed.

Lemma rstrip_empty_iff_blank (s : string) :
  Ubuntu.rstrip s = "" <-> Ubuntu.blank s = true.
Proof.
  induction s as [|d s IH]; simpl; [tauto|].
  destruct (Ubuntu.rstrip s) as [|e r].
  - destruct (Ubuntu.isspace d); simpl.
    + split; [intros _; apply IH; reflexivity | reflexivity].
    + split; discriminate.
  - split; [discriminate|].
    intros [_ Hb]%andb_true_iff. apply IH in Hb. discriminate.
Qed.

Lemma rstrip_last_char (s : string) (c : Ascii.ascii) :
  Ubuntu.last_char (Ubuntu.rstrip s) = Some c -> Ubuntu.isspace c = false.
Proof.
  induction s as [|d s IH]; simpl; [discriminate|].
  destruct (Ubuntu.rstrip s) as [|e r].
  - destruct (Ubuntu.isspace d) eqn:Hd; simpl; [discriminate|].
    intros [= <-]. exact Hd.
  - simpl. exact IH.
Qed.


Lemma lstrip_blank (s : string) :
  Ubuntu.blank (Ubuntu.lstrip s) = Ubuntu.blank s.
Proof.
  induction s as [|d s IH]; simpl; [reflexivity|].
  destruct (Ubuntu.isspace d) eqn:Hd; simpl; [exact IH|].
  rewrite Hd. reflexivity.
Qed.

Lemma last_char_some (e : Ascii.ascii) (r : string) :
  exists c, Ubuntu.last_char (String e r) = Some c.
Proof.
  revert e. induction r as [|f r IH]; intros e; simpl; [eauto|].
  apply (IH f).
Qed.

Lemma blank_last_char (r : string) (c : Ascii.ascii) :
  Ubuntu.blank r = true -> Ubuntu.last_char r = Some c ->
  Ubuntu.isspace c = true.
Proof.
  induction r as [|e r IH]; simpl; [discriminate|].
  intros [He Hr]%andb_true_iff.
  destruct r as [|f r]; [intros [= <-]; exact He | apply IH; exact Hr].
Qed.

Lemma strip_empty_iff_blank (s : string) :
  Ubuntu.lstrip (Ubuntu.rstrip s) = "" <-> Ubuntu.blank s = true.
Proof.
  split.
  - intros Hb%lstrip_empty_iff_blank. apply rstrip_empty_iff_blank.
    destruct (Ubuntu.rstrip s) as [|e r] eqn:Hr; [reflexivity|].
    destruct (last_char_some e r) as (c & Hc).
    pose proof (blank_last_char _ _ Hb Hc) as Hs.
    rewrite <- Hr in Hc. apply rstrip_last_char in Hc. congruence.
  - intros Hb%rstrip_empty_iff_blank. rewrite Hb. reflexivity.
Qed.

(** ** Version numbers *)

Section Versions.

Variable int : string -> option Z.

Abbreviation to_int := (Ubuntu.to_int int).
Abbreviation version_major := (Ubuntu.version_major int).
Abbreviation version_minor := (Ubuntu.version_minor int).

(** X14.  [cu_version_name] glues the first two components of a dotted version
    after ["cu"] and ignores every further component: ['11.3'] and
    ['11.3.1'] both give ['cu113']. *)
Theorem cu_version_name_joins_major_minor (a b : string) :
  Ubuntu.has_char Ubuntu.dot a = false ->
  Ubuntu.has_char Ubuntu.dot b = false ->
  Ubuntu.cu_version_name (a ++ "." ++ b) = Ubuntu.Done ("cu" ++ a ++ b)
  /\ forall rest,
       Ubuntu.cu_version_name (a ++ "." ++ b ++ "." ++ rest)
       = Ubuntu.Done ("cu" ++ a ++ b).
Proof.
  intros Ha Hb. unfold Ubuntu.cu_version_name. split; [|intros rest].
  - change (a ++ "." ++ b) with (a ++ String Ubuntu.dot b).
    fold Ubuntu.dot. rewrite (split_at_first_sep _ _ _ Ha).
    rewrite (split_without_sep _ _ Hb). reflexivity.
  - change (a ++ "." ++ b ++ "." ++ rest)
      with (a ++ String Ubuntu.dot (b ++ String Ubuntu.dot rest)).
    fold Ubuntu.dot. rewrite (split_at_first_sep _ _ _ Ha).
    rewrite (split_at_first_sep _ _ _ Hb). reflexivity.
Qed.

(** X15.  [cu_version_name] raises [IndexError] exactly on a version without a
    dot. *)
Theorem cu_version_name_fails_iff_no_dot (version : string) :
  Ubuntu.cu_version_name version = Ubuntu.Fail Ubuntu.IndexError
  <-> Ubuntu.has_char Ubuntu.dot version = false.
Proof.
  unfold Ubuntu.cu_version_name, Ubuntu.item. fold Ubuntu.dot.
  rewrite <- split_second_piece.
  destruct (split_not_nil Ubuntu.dot version) as (p & ps & ->). simpl.
  destruct (ps !! 0); split; congruence.
Qed.

(** X16.  A name that [cu_version_name] returns starts with ["cu"] and holds no
    dot. *)
Theorem cu_version_name_has_no_dot (version name : string) :
  Ubuntu.cu_version_name version = Ubuntu.Done name ->
  String.prefix "cu" name = true
  /\ Ubuntu.has_char Ubuntu.dot name = false.
Proof.
  unfold Ubuntu.cu_version_name, Ubuntu.item. fold Ubuntu.dot.
  pose proof (split_pieces_without_sep Ubuntu.dot version) as Hall.
  destruct (Ubuntu.split Ubuntu.dot version) as [|v0 [|v1 vs]]; simpl;
    try discriminate.
  intros [= <-].
  inversion Hall as [|? ? H0 Hrest]; subst.
  inversion Hrest as [|? ? H1 _]; subst.
  split; [simpl; destruct (v0 ++ v1); reflexivity|].
  rewrite !has_char_app, H0, H1. reflexivity.
Qed.

(** X17.  [version_major] is [int] of the text before the first dot, or of the
    whole text when it has no dot; it never raises [IndexError]. *)
Theorem version_major_reads_first_component (a : string) :
  Ubuntu.has_char Ubuntu.dot a = false ->
  version_major a = to_int a
  /\ (forall rest, version_major (a ++ "." ++ rest) = to_int a)
  /\ to_int a <> Ubuntu.Fail Ubuntu.IndexError.
Proof.
  intros Ha. unfold Ubuntu.version_major.
  split; [|split].
  - fold Ubuntu.dot. rewrite (split_without_sep _ _ Ha). reflexivity.
  - intros rest. change (a ++ "." ++ rest) with (a ++ String Ubuntu.dot rest).
    fold Ubuntu.dot. rewrite (split_at_first_sep _ _ _ Ha). reflexivity.
  - unfold Ubuntu.to_int. destruct (int a); discriminate.
Qed.

(** X18.  [version_minor] is [int] of the text between the first and the second
    dot, whether or not the text before the first dot is a number; on a
    text without a dot it raises [IndexError] before [int] is called. *)
Theorem version_minor_reads_second_component (a b : string) :
  Ubuntu.has_char Ubuntu.dot a = false ->
  Ubuntu.has_char Ubuntu.dot b = false ->
  version_minor (a ++ "." ++ b) = to_int b
  /\ (forall rest, version_minor (a ++ "." ++ b ++ "." ++ rest) = to_int b)
  /\ version_minor a = Ubuntu.Fail Ubuntu.IndexError.
Proof.
  intros Ha Hb. unfold Ubuntu.version_minor.
  split; [|split].
  - change (a ++ "." ++ b) with (a ++ String Ubuntu.dot b).
    fold Ubuntu.dot.
    rewrite (split_at_first_sep _ _ _ Ha), (split_without_sep _ _ Hb).
    reflexivity.
  - intros rest.
    change (a ++ "." ++ b ++ "." ++ rest)
      with (a ++ String Ubuntu.dot (b ++ String Ubuntu.dot rest)).
    fold Ubuntu.dot.
    rewrite (split_at_first_sep _ _ _ Ha), (split_at_first_sep _ _ _ Hb).
    reflexivity.
  - fold Ubuntu.dot. rewrite (split_without_sep _ _ Ha). reflexivity.
Qed.

End Versions.

(** ** Commands of the host *)

Lemma length_below_one (s : string) :
  (String.length s <? 1)%nat = true <-> s = "".
Proof.
  destruct s; simpl; [tauto|]. split; discriminate.
Qed.

Section HostProperties.

Context {World : Type}.
Variable popen_read : string -> World -> string * World.
Variable os_system : string -> World -> World.
Variable int : string -> option Z.

Abbreviation cmd_result := (Ubuntu.cmd_result popen_read).
Abbreviation get_job := (Ubuntu.get_job popen_read int).
Abbreviation simple_check_install :=
  (Ubuntu.simple_check_install popen_read os_system).

Lemma cmd_result_run (txt : string) (w : World) (t : list Ubuntu.event) :
  cmd_result txt w t
  = (Ubuntu.Done (Ubuntu.lstrip (Ubuntu.rstrip (fst (popen_read txt w)))),
     snd (popen_read txt w), (t ++ [Ubuntu.Popen txt])%list).
Proof.
  unfold Ubuntu.cmd_result, Ubuntu.fn, Ubuntu.seq, Ubuntu.popen, Ubuntu.exit.
  destruct (popen_read txt w). reflexivity.
Qed.


(** X20.  When no job count is given on the command line, [get_job] never
    returns less than two, whatever [nproc] prints. *)
Theorem get_job_default_at_least_two
    (argv : list string) (w w' : World) (t t' : list Ubuntu.event) (n : Z) :
  length argv <= 1 ->
  get_job argv w t = (Ubuntu.Done n, w', t') ->
  (2 <= n)%Z.
Proof.
  intros Hlen. unfold Ubuntu.get_job.
  destruct (length argv <=? 1)%nat eqn:Hle; [|apply Nat.leb_gt in Hle; lia].
  unfold Ubuntu.fn, Ubuntu.seq, Ubuntu.eval, Ubuntu.item, Ubuntu.print,
    Ubuntu.print_end, Ubuntu.call.
  destruct (argv !! 0); [|discriminate].
  rewrite cmd_result_run.
  destruct (0 <? String.length _)%nat.
  - unfold Ubuntu.to_int. destruct (int _); [|discriminate].
    unfold Ubuntu.exit. intros [= <- _ _]. lia.
  - unfold Ubuntu.exit. intros [= <- _ _]. lia.
Qed.

(** X21.  A job count given on the command line is returned as [int] reads it,
    not clamped from below, and the host is neither asked nor told
    anything. *)
Theorem get_job_explicit_unclamped
    (argv0 argv1 : string) (rest : list string)
    (w : World) (t : list Ubuntu.event) (n : Z) :
  int argv1 = Some n ->
  get_job (argv0 :: argv1 :: rest) w t = (Ubuntu.Done n, w, t).
Proof.
  intros Hn. unfold Ubuntu.get_job, Ubuntu.fn, Ubuntu.seq, Ubuntu.eval,
    Ubuntu.item, Ubuntu.to_int. simpl. rewrite Hn. reflexivity.
Qed.

(** X22.  When [which] already finds the tool, [simple_check_install] returns
    its path and has done nothing but that one query: nothing is
    installed and nothing printed. *)
Theorem simple_check_install_found
    (bin sudo : string) (w : World) (t : list Ubuntu.event) :
  Ubuntu.blank (fst (popen_read ("which " ++ bin) w)) = false ->
  simple_check_install bin sudo w t
  = (Ubuntu.Done
       (Some (Ubuntu.lstrip
                (Ubuntu.rstrip (fst (popen_read ("which " ++ bin) w))))),
     snd (popen_read ("which " ++ bin) w),
     (t ++ [Ubuntu.Popen ("which " ++ bin)])%list).
Proof.
  intros Hb. unfold Ubuntu.simple_check_install, Ubuntu.fn, Ubuntu.seq,
    Ubuntu.call.
  rewrite cmd_result_run.
  destruct (String.length _ <? 1)%nat eqn:Hlen; [|reflexivity].
  apply length_below_one, strip_empty_iff_blank in Hlen. congruence.
Qed.

(** X23.  [simple_check_install] never raises.  It returns [None] or a path that
    is not empty; it runs at most one command, the [apt install] of the
    tool under the given [sudo]; and it returns [None] only after that
    command, with the failure message as its last output. *)
Theorem simple_check_install_outcome
    (bin sudo : string) (w : World) (t : list Ubuntu.event) :
  exists res w' ext,
    simple_check_install bin sudo w t
    = (Ubuntu.Done res, w', (t ++ ext)%list)
    /\ res <> Some ""
    /\ (Ubuntu.commands ext = []
        \/ Ubuntu.commands ext = [sudo ++ " apt install " ++ bin ++ " -y"])
    /\ (res = None ->
        Ubuntu.commands ext = [sudo ++ " apt install " ++ bin ++ " -y"]
        /\ last ext
           = Some (Ubuntu.Print (("Check " ++ bin ++ " failed.")
                                 ++ Ubuntu.nl))).
Proof.
  unfold Ubuntu.simple_check_install, Ubuntu.fn, Ubuntu.seq, Ubuntu.call.
  rewrite cmd_result_run.
  destruct (String.length _ <? 1)%nat eqn:Hlen.
  - unfold Ubuntu.print, Ubuntu.print_end, Ubuntu.system.
    rewrite cmd_result_run.
    destruct (String.length (Ubuntu.lstrip (Ubuntu.rstrip
                (fst (popen_read ("which " ++ bin) (os_system _ _)))))
              <? 1)%nat eqn:Hlen2.
    + do 3 eexists. unfold Ubuntu.exit.
      split; [rewrite <- !app_assoc; reflexivity|].
      repeat split; try discriminate; auto.
    + do 3 eexists. unfold Ubuntu.next, Ubuntu.exit.
      split; [rewrite <- !app_assoc; reflexivity|].
      repeat split; try discriminate; auto.
      intros [= Hs]. rewrite Hs in Hlen2. discriminate.
  - do 3 eexists. unfold Ubuntu.next, Ubuntu.exit.
    split; [reflexivity|].
    repeat split; try discriminate; auto.
    intros [= Hs]. rewrite Hs in Hlen. discriminate.
Qed.

End HostProperties.

(** ** A program logic for the script *)

Lemma commands_app (a b : list Ubuntu.event) :
  Ubuntu.commands (a ++ b) = (Ubuntu.commands a ++ Ubuntu.commands b)%list.
Proof. apply omap_app. Qed.

Lemma runs_listed_refl (sudo : string) (t : list Ubuntu.event) :
  Ubuntu.runs_listed sudo t t.
Proof. exists []. split; [symmetry; apply app_nil_r | constructor]. Qed.

Lemma runs_listed_app (sudo : string) (t0 t ext : list Ubuntu.event) :
  Ubuntu.runs_listed sudo t0 t ->
  Forall (fun cmd => cmd ∈ Ubuntu.script_commands sudo)
    (Ubuntu.commands ext) ->
  Ubuntu.runs_listed sudo t0 (t ++ ext).
Proof.
  intros (ext0 & -> & Hall) Hext. exists (ext0 ++ ext)%list.
  split; [symmetry; apply app_assoc|].
  rewrite commands_app. apply Forall_app. auto.
Qed.

Section Script.

Context {World : Type}.
Variable popen_read : string -> World -> string * World.
Variable os_system : string -> World -> World.
Variable import_version : string -> World -> option string * World.
Variable int : string -> option Z.

Abbreviation cmd_result := (Ubuntu.cmd_result popen_read).
Abbreviation simple_check_install :=
  (Ubuntu.simple_check_install popen_read os_system).
Abbreviation ensure_base_env :=
  (Ubuntu.ensure_base_env popen_read os_system import_version int).

Lemma simple_check_install_run
    (bin sudo : string) (w : World) (t : list Ubuntu.event) :
  exists res w' ext,
    simple_check_install bin sudo w t
    = (Ubuntu.Done res, w', (t ++ ext)%list)
    /\ (Ubuntu.commands ext = []
        \/ Ubuntu.commands ext = [sudo ++ " apt install " ++ bin ++ " -y"]).
Proof.
  unfold Ubuntu.simple_check_install, Ubuntu.fn, Ubuntu.seq, Ubuntu.call.
  rewrite (cmd_result_run popen_read).
  destruct (String.length _ <? 1)%nat.
  - unfold Ubuntu.print, Ubuntu.print_end, Ubuntu.system.
    rewrite (cmd_result_run popen_read).
    destruct (String.length _ <? 1)%nat;
      unfold Ubuntu.next, Ubuntu.exit;
      do 3 eexists; (split; [rewrite <- !app_assoc; reflexivity|]);
      right; reflexivity.
  - unfold Ubuntu.next, Ubuntu.exit.
    do 3 eexists. split; [reflexivity|]. left. reflexivity.
Qed.

Section Rules.

Context {R B : Type}.
Variable Q : B -> World -> list Ubuntu.event -> Prop.
Variable QE : R -> World -> list Ubuntu.event -> Prop.
Variable QT : Ubuntu.exn -> World -> list Ubuntu.event -> Prop.

Lemma wp_join {A} (I : A -> World -> list Ubuntu.event -> Prop)
    (m : Ubuntu.Block R A) (k : A -> Ubuntu.Block R B) w t :
  Ubuntu.wp m I QE QT w t ->
  (forall a w' t', I a w' t' -> Ubuntu.wp (k a) Q QE QT w' t') ->
  Ubuntu.wp (Ubuntu.seq m k) Q QE QT w t.
Proof.
  unfold Ubuntu.wp, Ubuntu.seq. intros Hm Hk.
  destruct (m w t) as [[[a|r|e] w'] t']; auto.
  apply Hk. exact Hm.
Qed.

Lemma wp_print_end (s e : string) (k : unit -> Ubuntu.Block R B) w t :
  Ubuntu.wp (k tt) Q QE QT w (t ++ [Ubuntu.Print (s ++ e)]) ->
  Ubuntu.wp (Ubuntu.seq (Ubuntu.print_end s e) k) Q QE QT w t.
Proof. exact (fun H => H). Qed.

Lemma wp_print (s : string) (k : unit -> Ubuntu.Block R B) w t :
  Ubuntu.wp (k tt) Q QE QT w (t ++ [Ubuntu.Print (s ++ Ubuntu.nl)]) ->
  Ubuntu.wp (Ubuntu.seq (Ubuntu.print s) k) Q QE QT w t.
Proof. exact (fun H => H). Qed.

Lemma wp_system (cmd : string) (k : unit -> Ubuntu.Block R B) w t :
  Ubuntu.wp (k tt) Q QE QT (os_system cmd w) (t ++ [Ubuntu.System cmd]) ->
  Ubuntu.wp (Ubuntu.seq (Ubuntu.system os_system cmd) k) Q QE QT w t.
Proof. exact (fun H => H). Qed.

Lemma wp_import (name : string) (k : option string -> Ubuntu.Block R B) w t :
  (forall v w', Ubuntu.wp (k v) Q QE QT w' (t ++ [Ubuntu.Import name])) ->
  Ubuntu.wp (Ubuntu.seq (Ubuntu.import import_version name) k) Q QE QT w t.
Proof.
  intros H. unfold Ubuntu.wp, Ubuntu.seq, Ubuntu.import.
  destruct (import_version name w) as [v w']. apply H.
Qed.

Lemma wp_cmd_result (txt : string) (k : string -> Ubuntu.Block R B) w t :
  Ubuntu.wp (k (Ubuntu.lstrip (Ubuntu.rstrip (fst (popen_read txt w)))))
    Q QE QT (snd (popen_read txt w)) (t ++ [Ubuntu.Popen txt]) ->
  Ubuntu.wp (Ubuntu.seq (Ubuntu.call (cmd_result txt)) k) Q QE QT w t.
Proof.
  intros H. unfold Ubuntu.wp, Ubuntu.seq, Ubuntu.call.
  rewrite (cmd_result_run popen_read). exact H.
Qed.

Lemma wp_simple_check_install (bin sudo : string)
    (k : option string -> Ubuntu.Block R B) w t :
  (forall res w' ext,
     Ubuntu.commands ext = []
     \/ Ubuntu.commands ext = [sudo ++ " apt install " ++ bin ++ " -y"] ->
     Ubuntu.wp (k res) Q QE QT w' (t ++ ext)) ->
  Ubuntu.wp (Ubuntu.seq (Ubuntu.call (simple_check_install bin sudo)) k)
    Q QE QT w t.
Proof.
  intros H. unfold Ubuntu.wp, Ubuntu.seq, Ubuntu.call.
  destruct (simple_check_install_run bin sudo w t)
    as (res & w' & ext & -> & Hext).
  apply H. exact Hext.
Qed.

End Rules.

Lemma wp_fn {R} (P : Ubuntu.outcome R -> list Ubuntu.event -> Prop)
    (body : Ubuntu.Block R R) (w : World) (t : list Ubuntu.event) :
  Ubuntu.wp body (fun r _ t' => P (Ubuntu.Done r) t')
    (fun r _ t' => P (Ubuntu.Done r) t')
    (fun e _ t' => P (Ubuntu.Fail e) t') w t ->
  P (fst (fst (Ubuntu.fn body w t))) (snd (Ubuntu.fn body w t)).
Proof.
  unfold Ubuntu.wp, Ubuntu.fn.
  destruct (body w t) as [[[r|r|e] w'] t']; auto.
Qed.


Section Rules2.

Context {R B : Type}.
Variable Q : B -> World -> list Ubuntu.event -> Prop.
Variable QE : R -> World -> list Ubuntu.event -> Prop.
Variable QT : Ubuntu.exn -> World -> list Ubuntu.event -> Prop.

Lemma wp_next (b : B) (w : World) t :
  Q b w t -> Ubuntu.wp (Ubuntu.next b) Q QE QT w t.
Proof. exact (fun H => H). Qed.

Lemma wp_exit (r : R) (w : World) t :
  QE r w t -> Ubuntu.wp (@Ubuntu.exit World R B r) Q QE QT w t.
Proof. exact (fun H => H). Qed.

Lemma wp_sleep (n : nat) (k : unit -> Ubuntu.Block R B) (w : World) t :
  Ubuntu.wp (k tt) Q QE QT w (t ++ [Ubuntu.Sleep n]) ->
  Ubuntu.wp (Ubuntu.seq (Ubuntu.sleep n) k) Q QE QT w t.
Proof. exact (fun H => H). Qed.

Lemma wp_cmd_result_any (txt : string) (k : string -> Ubuntu.Block R B) w t :
  (forall s w', Ubuntu.wp (k s) Q QE QT w' (t ++ [Ubuntu.Popen txt])) ->
  Ubuntu.wp (Ubuntu.seq (Ubuntu.call (cmd_result txt)) k) Q QE QT w t.
Proof. intros H. apply wp_cmd_result, H. Qed.

Lemma wp_eval {A} (o : Ubuntu.outcome A) (k : A -> Ubuntu.Block R B)
    (w : World) t :
  match o with
  | Ubuntu.Done a => Ubuntu.wp (k a) Q QE QT w t
  | Ubuntu.Fail e => QT e w t
  end ->
  Ubuntu.wp (Ubuntu.seq (Ubuntu.eval o) k) Q QE QT w t.
Proof. destruct o; exact (fun H => H). Qed.

Lemma wp_system_last (cmd : string) (w : World) (t : list Ubuntu.event)
    (Q' : unit -> World -> list Ubuntu.event -> Prop) :
  Q' tt (os_system cmd w) (t ++ [Ubuntu.System cmd])%list ->
  Ubuntu.wp (Ubuntu.system os_system cmd) Q' QE QT w t.
Proof. exact (fun H => H). Qed.

Lemma wp_print_last (s : string) (w : World) (t : list Ubuntu.event)
    (Q' : unit -> World -> list Ubuntu.event -> Prop) :
  Q' tt w (t ++ [Ubuntu.Print (s ++ Ubuntu.nl)])%list ->
  Ubuntu.wp (Ubuntu.print s) Q' QE QT w t.
Proof. exact (fun H => H). Qed.

Lemma wp_sleep_last (n : nat) (w : World) (t : list Ubuntu.event)
    (Q' : unit -> World -> list Ubuntu.event -> Prop) :
  Q' tt w (t ++ [Ubuntu.Sleep n])%list ->
  Ubuntu.wp (Ubuntu.sleep n) Q' QE QT w t.
Proof. exact (fun H => H). Qed.

Lemma wp_simple_check_install_listed (bin sudo : string)
    (k : option string -> Ubuntu.Block R B) (w : World)
    (t t0 : list Ubuntu.event) :
  Ubuntu.runs_listed sudo t0 t ->
  (sudo ++ " apt install " ++ bin ++ " -y") ∈ Ubuntu.script_commands sudo ->
  (forall res w' t',
     Ubuntu.runs_listed sudo t0 t' -> Ubuntu.wp (k res) Q QE QT w' t') ->
  Ubuntu.wp (Ubuntu.seq (Ubuntu.call (simple_check_install bin sudo)) k)
    Q QE QT w t.
Proof.
  intros Ht Hin H. apply wp_simple_check_install.
  intros res w' ext Hext. apply H. apply runs_listed_app; [exact Ht|].
  destruct Hext as [-> | ->]; [constructor|].
  constructor; [exact Hin | constructor].
Qed.

End Rules2.

Lemma version_major_fails (s : string) (e : Ubuntu.exn) :
  Ubuntu.version_major int s = Ubuntu.Fail e -> e = Ubuntu.ValueError.
Proof.
  unfold Ubuntu.version_major, Ubuntu.item. fold Ubuntu.dot.
  destruct (split_not_nil Ubuntu.dot s) as (p & ps & ->). simpl.
  unfold Ubuntu.to_int. destruct (int p); [discriminate|].
  intros [= <-]. reflexivity.
Qed.

Ltac listed_member :=
  unfold Ubuntu.script_commands;
  repeat first [ apply list_elem_of_here | apply list_elem_of_further ].

Ltac solve_listed :=
  rewrite <- ?app_assoc;
  first [ assumption
        | apply runs_listed_refl
        | apply runs_listed_app; [first [assumption | apply runs_listed_refl]|];
          simpl; repeat (constructor; [listed_member|]); constructor ].

Ltac wp_prim :=
  first [ apply wp_print | apply wp_print_end | apply wp_system
        | apply wp_sleep
        | apply wp_import; intros ? ?
        | apply wp_cmd_result_any; intros ? ? ];
  cbv beta.

Ltac gave_up_for tool :=
  exists tool;
  split; [ unfold Ubuntu.mandatory_tools;
           repeat first [ apply list_elem_of_here
                        | apply list_elem_of_further ]
         | apply last_snoc ].

Ltac solve_gave_up :=
  first [ gave_up_for "cmake" | gave_up_for "make" | gave_up_for "g++-7"
        | gave_up_for "ocv" ].

Ltac solve_post :=
  cbv beta;
  lazymatch goal with
  | |- Ubuntu.script_post _ _ (Ubuntu.Done _) _ =>
      split; [solve_listed|];
      split; [ first [ assumption | left; reflexivity | right; reflexivity ]
             | first [ left; reflexivity
                     | right; split; [reflexivity | solve_gave_up] ] ]
  | |- Ubuntu.script_post _ _ (Ubuntu.Fail _) _ =>
      split; [solve_listed|]; split; [reflexivity | apply last_snoc]
  | |- _ /\ _ =>
      split; [solve_listed
             | first [ assumption | left; reflexivity | right; reflexivity ] ]
  | |- _ => solve_listed
  end.

Ltac wp_intro :=
  let H := fresh "H" in
  intros ? ? ? H;
  lazymatch type of H with
  | _ /\ _ => destruct H as [? ?]
  | _ => idtac
  end.

Ltac wp_auto J sudo t0 :=
  repeat
    (cbv beta;
     lazymatch goal with
     | |- Ubuntu.wp (Ubuntu.next _) _ _ _ _ _ => apply wp_next; solve_post
     | |- Ubuntu.wp (Ubuntu.exit _) _ _ _ _ _ => apply wp_exit; solve_post
     | |- Ubuntu.wp (if ?c then _ else _) _ _ _ _ _ => destruct c
     | |- Ubuntu.wp (match ?v with Some _ => _ | None => _ end) _ _ _ _ _ =>
         destruct v
     | |- Ubuntu.wp (Ubuntu.seq (if _ then _ else _) _) _ _ _ _ _ =>
         first [ apply (wp_join _ _ _ J)
               | apply (wp_join _ _ _
                          (fun _ _ t' => Ubuntu.runs_listed sudo t0 t')) ];
         [|wp_intro]
     | |- Ubuntu.wp (Ubuntu.seq (match _ with Some _ => _ | None => _ end) _)
            _ _ _ _ _ =>
         first [ apply (wp_join _ _ _ J)
               | apply (wp_join _ _ _
                          (fun _ _ t' => Ubuntu.runs_listed sudo t0 t')) ];
         [|wp_intro]
     | |- Ubuntu.wp (Ubuntu.seq (Ubuntu.eval ?o) _) _ _ _ _ _ =>
         let Ho := fresh "Ho" in
         apply wp_eval; destruct o eqn:Ho;
         [|apply version_major_fails in Ho; subst; solve_post]
     | |- Ubuntu.wp
            (Ubuntu.seq (Ubuntu.call (Ubuntu.simple_check_install _ _ _ _)) _)
            _ _ _ _ _ =>
         apply (wp_simple_check_install_listed _ _ _ _ _ _ _ _ t0);
         [solve_listed | listed_member | intros ? ? ? ?]
     | |- Ubuntu.wp (Ubuntu.system _ _) _ _ _ _ _ =>
         apply wp_system_last; solve_post
     | |- Ubuntu.wp (Ubuntu.print _) _ _ _ _ _ =>
         apply wp_print_last; solve_post
     | |- Ubuntu.wp (Ubuntu.sleep _) _ _ _ _ _ =>
         apply wp_sleep_last; solve_post
     | |- Ubuntu.wp (Ubuntu.seq _ _) _ _ _ _ _ => wp_prim
     end).

Lemma ensure_base_env_spec (work_dir dep_dir : string)
    (w : World) (t : list Ubuntu.event) :
  let sudo :=
    if Ubuntu.contains "root"
         (Ubuntu.lstrip (Ubuntu.rstrip (fst (popen_read "whoami"
            (os_system "python3 -m pip install wheel"
               (os_system "python3 -m ensurepip" w))))))
    then "" else "sudo" in
  Ubuntu.script_post sudo t
    (fst (fst (ensure_base_env work_dir dep_dir w t)))
    (snd (ensure_base_env work_dir dep_dir w t)).
Proof.
  intros sudo. unfold Ubuntu.ensure_base_env.
  apply (wp_fn (Ubuntu.script_post sudo t)).
  cbv zeta.
  do 4 wp_prim. apply wp_cmd_result. cbv beta. fold sudo.
  generalize sudo. clear sudo. intros sudo.
  wp_prim. wp_prim.
  (* cmake *)
  apply (wp_join _ _ _
           (fun found _ t' =>
              Ubuntu.runs_listed sudo t t'
              /\ (found.2 = [] \/ found.2 = [Ubuntu.export_path]))).
  { wp_auto (fun (found : string * list string) (_ : World)
                 (t' : list Ubuntu.event) =>
               Ubuntu.runs_listed sudo t t'
               /\ (found.2 = [] \/ found.2 = [Ubuntu.export_path]))
      sudo t. }
  wp_intro.
  wp_auto (fun (_ : unit) (_ : World) (t' : list Ubuntu.event) =>
             Ubuntu.runs_listed sudo t t') sudo t.
Qed.

(** X24.  When [ensure_base_env] returns, the code is [0], or it is [-1] and the
    last thing printed is the failure message for cmake, make, g++-7 or
    opencv: a missing wget, git, unzip, torch or mmcv never makes it give
    up.  The list [envs] it returns is empty or holds the one line that
    puts the user's local path on [PATH]. *)
Theorem ensure_base_env_exit_code
    (work_dir dep_dir : string) (w w' : World) (t t' : list Ubuntu.event)
    (code : Z) (envs : list string) :
  ensure_base_env work_dir dep_dir w t = (Ubuntu.Done (code, envs), w', t') ->
  (envs = [] \/ envs = [Ubuntu.export_path])
  /\ (code = 0%Z \/ code = (-1)%Z /\ Ubuntu.gave_up t').
Proof.
  intros Hrun. pose proof (ensure_base_env_spec work_dir dep_dir w t) as H.
  rewrite Hrun in H. exact (proj2 H).
Qed.

(** X25.  The only exception [ensure_base_env] can raise is the [ValueError] of
    [int] on the release number of the distribution, and it raises it
    right after the [apt update] that prepares the installation of
    g++-7. *)
Theorem ensure_base_env_raises_only_value_error
    (work_dir dep_dir : string) (w w' : World) (t t' : list Ubuntu.event)
    (e : Ubuntu.exn) :
  ensure_base_env work_dir dep_dir w t = (Ubuntu.Fail e, w', t') ->
  e = Ubuntu.ValueError
  /\ (last t' = Some (Ubuntu.System " apt update")
      \/ last t' = Some (Ubuntu.System "sudo apt update")).
Proof.
  intros Hrun. pose proof (ensure_base_env_spec work_dir dep_dir w t) as H.
  rewrite Hrun in H. destruct H as (_ & He & Hlast). split; [exact He|].
  simpl in Hlast. destruct (Ubuntu.contains _ _); auto.
Qed.

(** X26.  On every host and along every path, also one that ends in a failure,
    [ensure_base_env] passes to [os.system] only commands of its fixed
    list, with [sudo] left out when [whoami] answers a name that contains
    [root]. *)
Theorem ensure_base_env_runs_listed_commands
    (work_dir dep_dir : string) (w : World) (t : list Ubuntu.event) :
  Ubuntu.runs_listed
    (if Ubuntu.contains "root"
          (Ubuntu.lstrip (Ubuntu.rstrip (fst (popen_read "whoami"
             (os_system "python3 -m pip install wheel"
                (os_system "python3 -m ensurepip" w))))))
     then "" else "sudo")
    t (snd (ensure_base_env work_dir dep_dir w t)).
Proof. exact (proj1 (ensure_base_env_spec work_dir dep_dir w t)). Qed.

(** X27.  When [whoami] answers a name that contains [root], no command that
    [ensure_base_env] runs mentions [sudo]. *)
Theorem ensure_base_env_root_never_sudo
    (work_dir dep_dir : string) (w : World) (t : list Ubuntu.event) :
  Ubuntu.contains "root"
    (Ubuntu.lstrip (Ubuntu.rstrip (fst (popen_read "whoami"
       (os_system "python3 -m pip install wheel"
          (os_system "python3 -m ensurepip" w)))))) = true ->
  exists ext,
    snd (ensure_base_env work_dir dep_dir w t) = (t ++ ext)%list
    /\ Forall (fun cmd => Ubuntu.contains "sudo" cmd = false)
         (Ubuntu.commands ext).
Proof.
  intros Hroot.
  destruct (ensure_base_env_spec work_dir dep_dir w t) as ((ext & Ht & Hall) & _).
  rewrite Hroot in Hall. exists ext. split; [exact Ht|].
  assert (Hlist : Forall (fun cmd => Ubuntu.contains "sudo" cmd = false)
                    (Ubuntu.script_commands "")).
  { repeat constructor. }
  rewrite Forall_forall in Hlist.
  eapply Forall_impl; [exact Hall|]. intros cmd Hin. apply Hlist, Hin.
Qed.

(** X28.  When [whoami] answers a name without [root], every [apt],
    [add-apt-repository] and [update-alternatives] command that
    [ensure_base_env] runs goes through [sudo]. *)
Theorem ensure_base_env_user_always_sudo
    (work_dir dep_dir : string) (w : World) (t : list Ubuntu.event) :
  Ubuntu.contains "root"
    (Ubuntu.lstrip (Ubuntu.rstrip (fst (popen_read "whoami"
       (os_system "python3 -m pip install wheel"
          (os_system "python3 -m ensurepip" w)))))) = false ->
  exists ext,
    snd (ensure_base_env work_dir dep_dir w t) = (t ++ ext)%list
    /\ Forall (fun cmd =>
                 Ubuntu.contains "apt" cmd
                 || Ubuntu.contains "update-alternatives" cmd = true ->
                 String.prefix "sudo " cmd = true)
         (Ubuntu.commands ext).
Proof.
  intros Hroot.
  destruct (ensure_base_env_spec work_dir dep_dir w t) as ((ext & Ht & Hall) & _).
  rewrite Hroot in Hall. exists ext. split; [exact Ht|].
  assert (Hlist : Forall (fun cmd =>
                            Ubuntu.contains "apt" cmd
                            || Ubuntu.contains "update-alternatives" cmd = true ->
                            String.prefix "sudo " cmd = true)
                    (Ubuntu.script_commands "sudo")).
  { repeat constructor; vm_compute; (reflexivity || discriminate). }
  rewrite Forall_forall in Hlist.
  eapply Forall_impl; [exact Hall|]. intros cmd Hin. apply Hlist, Hin.
Qed.

(** *** Single paths *)

Lemma found_not_empty (out : string) :
  Ubuntu.blank out = false ->
  (String.length (Ubuntu.lstrip (Ubuntu.rstrip out)) <? 1)%nat = false.
Proof.
  intros Hb. destruct (String.length _ <? 1)%nat eqn:Hlen; [|reflexivity].
  apply length_below_one, strip_empty_iff_blank in Hlen. congruence.
Qed.

Section PathRules.

Context {R B : Type}.
Variable Q : B -> World -> list Ubuntu.event -> Prop.
Variable QE : R -> World -> list Ubuntu.event -> Prop.
Variable QT : Ubuntu.exn -> World -> list Ubuntu.event -> Prop.

Lemma wp_bind {A} (m : Ubuntu.Block R A) (k : A -> Ubuntu.Block R B)
    (w : World) (t : list Ubuntu.event) :
  Ubuntu.wp m (fun a w' t' => Ubuntu.wp (k a) Q QE QT w' t') QE QT w t ->
  Ubuntu.wp (Ubuntu.seq m k) Q QE QT w t.
Proof.
  unfold Ubuntu.wp, Ubuntu.seq.
  destruct (m w t) as [[[a|r|e] w'] t']; auto.
Qed.

Lemma wp_cmd_result_found (txt : string) (k : string -> Ubuntu.Block R B)
    (w : World) (t : list Ubuntu.event) :
  (forall w', Ubuntu.blank (fst (popen_read txt w')) = false) ->
  (forall s w',
     (String.length s <? 1)%nat = false ->
     Ubuntu.wp (k s) Q QE QT w' (t ++ [Ubuntu.Popen txt])) ->
  Ubuntu.wp (Ubuntu.seq (Ubuntu.call (cmd_result txt)) k) Q QE QT w t.
Proof.
  intros Hfound H. apply wp_cmd_result, H, found_not_empty, Hfound.
Qed.

Lemma wp_cmd_result_missing (txt : string) (k : string -> Ubuntu.Block R B)
    (w : World) (t : list Ubuntu.event) :
  (forall w', Ubuntu.blank (fst (popen_read txt w')) = true) ->
  (forall w', Ubuntu.wp (k "") Q QE QT w' (t ++ [Ubuntu.Popen txt])) ->
  Ubuntu.wp (Ubuntu.seq (Ubuntu.call (cmd_result txt)) k) Q QE QT w t.
Proof.
  intros Hmissing H. apply wp_cmd_result.
  rewrite (proj2 (strip_empty_iff_blank _) (Hmissing w)). apply H.
Qed.

Lemma wp_simple_check_install_found (bin sudo : string)
    (k : option string -> Ubuntu.Block R B)
    (w : World) (t : list Ubuntu.event) :
  (forall w', Ubuntu.blank (fst (popen_read ("which " ++ bin) w')) = false) ->
  (forall s w',
     Ubuntu.wp (k (Some s)) Q QE QT w' (t ++ [Ubuntu.Popen ("which " ++ bin)])) ->
  Ubuntu.wp (Ubuntu.seq (Ubuntu.call (simple_check_install bin sudo)) k)
    Q QE QT w t.
Proof.
  intros Hfound H. unfold Ubuntu.simple_check_install, Ubuntu.fn.
  unfold Ubuntu.wp, Ubuntu.seq, Ubuntu.call.
  rewrite (cmd_result_run popen_read).
  rewrite (found_not_empty _ (Hfound w)). apply H.
Qed.

End PathRules.

Ltac wp_path :=
  repeat
    (cbv beta;
     lazymatch goal with
     | |- Ubuntu.wp (Ubuntu.next _) _ _ _ _ _ => apply wp_next
     | |- Ubuntu.wp (Ubuntu.exit _) _ _ _ _ _ => apply wp_exit
     | |- Ubuntu.wp (if false then _ else _) _ _ _ _ _ => cbv iota
     | |- Ubuntu.wp (if true then _ else _) _ _ _ _ _ => cbv iota
     | |- Ubuntu.wp (match ?v with Some _ => _ | None => _ end) _ _ _ _ _ =>
         destruct v
     | |- Ubuntu.wp (Ubuntu.seq (if _ then _ else _) _) _ _ _ _ _ =>
         apply wp_bind
     | |- Ubuntu.wp (Ubuntu.seq (match _ with Some _ => _ | None => _ end) _)
            _ _ _ _ _ =>
         apply wp_bind
     | |- Ubuntu.wp (Ubuntu.seq (Ubuntu.next _) _) _ _ _ _ _ =>
         apply wp_bind
     | |- Ubuntu.wp (Ubuntu.system _ _) _ _ _ _ _ => apply wp_system_last
     | |- Ubuntu.wp (Ubuntu.print _) _ _ _ _ _ => apply wp_print_last
     | |- Ubuntu.wp (Ubuntu.sleep _) _ _ _ _ _ => apply wp_sleep_last
     | |- Ubuntu.wp (Ubuntu.seq (Ubuntu.call (Ubuntu.cmd_result _ _)) _)
            _ _ _ _ _ =>
         first [ apply wp_cmd_result_found; [solve [assumption]|];
                 let Hs := fresh "Hs" in intros ? ? Hs; try rewrite Hs
               | apply wp_cmd_result_missing; [solve [assumption]|]; intros ?
               | apply wp_cmd_result_any; intros ? ? ]
     | |- Ubuntu.wp
            (Ubuntu.seq (Ubuntu.call (Ubuntu.simple_check_install _ _ _ _)) _)
            _ _ _ _ _ =>
         apply wp_simple_check_install_found; [solve [assumption]|]; intros ? ?
     | |- Ubuntu.wp (Ubuntu.seq _ _) _ _ _ _ _ => wp_prim
     end).


(** X30.  On a host with cmake and make but without g++-7, whose release number
    does not start with something [int] can read, [ensure_base_env] does
    not return: it raises [ValueError], after it has installed
    [software-properties-common] and run [apt update]. *)
Theorem ensure_base_env_release_not_a_number
    (work_dir dep_dir : string) (w : World) (t : list Ubuntu.event)
    (release : string) :
  (forall w', Ubuntu.blank (fst (popen_read "which cmake" w')) = false) ->
  (forall w', Ubuntu.blank (fst (popen_read "which make" w')) = false) ->
  (forall w', Ubuntu.blank (fst (popen_read "which g++-7" w')) = true) ->
  (forall w',
     Ubuntu.lstrip (Ubuntu.rstrip (fst (popen_read Ubuntu.lsb_release w')))
     = release) ->
  release <> "" ->
  Ubuntu.version_major int release = Ubuntu.Fail Ubuntu.ValueError ->
  fst (fst (ensure_base_env work_dir dep_dir w t))
  = Ubuntu.Fail Ubuntu.ValueError
  /\ exists sudo ext,
       snd (ensure_base_env work_dir dep_dir w t) = (t ++ ext)%list
       /\ Ubuntu.commands ext
          = [ "python3 -m ensurepip"; "python3 -m pip install wheel";
              sudo ++ " DEBIAN_FRONTEND=" ++ Ubuntu.dquote
                   ++ "noninteractive" ++ Ubuntu.dquote
                   ++ " apt install software-properties-common -y";
              sudo ++ " apt update" ].
Proof.
  intros Hcmake Hmake Hgplus Hlsb Hrel Hint.
  assert (Hlen : (String.length release <? 1)%nat = false).
  { destruct release; [congruence | reflexivity]. }
  unfold Ubuntu.ensure_base_env.
  apply (wp_fn (fun o t' =>
                  o = Ubuntu.Fail Ubuntu.ValueError
                  /\ exists sudo ext,
                       t' = (t ++ ext)%list
                       /\ Ubuntu.commands ext
                          = [ "python3 -m ensurepip";
                              "python3 -m pip install wheel";
                              sudo ++ " DEBIAN_FRONTEND=" ++ Ubuntu.dquote
                                   ++ "noninteractive" ++ Ubuntu.dquote
                                   ++ " apt install software-properties-common -y";
                              sudo ++ " apt update" ])).
  cbv zeta. do 4 wp_prim.
  apply wp_cmd_result_any; intros whoami ?; cbv beta.
  apply wp_cmd_result. rewrite Hlsb. cbv beta.
  generalize (snd (popen_read Ubuntu.lsb_release w')). intros ?.
  wp_path.
  change (String.length "" <? 1)%nat with true. cbv iota.
  do 3 wp_prim. rewrite Hlen. apply wp_bind. cbv iota.
  apply wp_eval. rewrite Hint.
  split; [reflexivity|].
  eexists _, _. split; [rewrite <- !app_assoc; reflexivity|]. reflexivity.
Qed.

End Script.

(** ** The further properties at concrete inputs *)

Lemma build_ignores_device_witness :
  Example.build TENSORRT ["end2end.engine"] "cpu" None None None ∅ []
  = Example.build TENSORRT ["end2end.engine"] "cuda:0" None None None ∅ [].
Proof.
  apply (build_ignores_device
           Example.cfg_bool Example.cfg_backend Example.get_task_type
           Example.SDK_TASK_MAP Example.construct TENSORRT).
  reflexivity.
Defined.

Lemma build_ignores_input_names_witness :
  Example.build ONNXRUNTIME ["end2end.onnx"] "cpu" None None None ∅ []
  = Example.build ONNXRUNTIME ["end2end.onnx"] "cpu" (Some ["x"]) None None
      ∅ [].
Proof.
  apply (build_ignores_input_names
           Example.cfg_bool Example.cfg_backend Example.get_task_type
           Example.SDK_TASK_MAP Example.construct ONNXRUNTIME).
  discriminate.
Defined.

Lemma build_ignores_deploy_cfg_witness :
  Example.build ONNXRUNTIME ["end2end.onnx"] "cpu" None None None ∅ []
  = Example.build ONNXRUNTIME ["end2end.onnx"] "cpu" None None
      (Some Example.cfg_xy) ∅ [].
Proof.
  apply (build_ignores_deploy_cfg
           Example.cfg_bool Example.cfg_backend Example.get_task_type
           Example.SDK_TASK_MAP Example.construct ONNXRUNTIME);
    discriminate.
Defined.

Lemma build_reads_only_uri_witness :
  Example.build SNPE ["net.dlc"] "cpu" None None None
    {[ "uri" := VStr "10.0.0.1:60000" ]} []
  = Example.build SNPE ["net.dlc"] "cpu" None None None
      {[ "uri" := VStr "10.0.0.1:60000"; "verbose" := VBool true ]} [].
Proof.
  apply (build_reads_only_uri
           Example.cfg_bool Example.cfg_backend Example.get_task_type
           Example.SDK_TASK_MAP Example.construct SNPE).
  intros _. vm_compute. reflexivity.
Defined.

Lemma build_sdk_unresolved_task_witness :
  Example.build SDK ["model"] "cpu" None None (Some Example.cfg_xy) ∅ []
  = (Raise (AssertionError "requires a task field"), []).
Proof.
  apply (build_sdk_unresolved_task
           Example.cfg_bool Example.cfg_backend Example.get_task_type
           Example.SDK_TASK_MAP Example.construct).
  left. reflexivity.
Defined.

Lemma init_output_names_truthy_witness :
  truthy (output_names (mkModel (VStr "input") (VList ["output"]) None))
  = true
  /\ wrapper (mkModel (VStr "input") (VList ["output"]) None) = None.
Proof.
  apply (init_output_names_truthy Example.cfg_ir
           (Some Example.cfg_no_outputs)).
  vm_compute. reflexivity.
Defined.

Lemma init_raises_iff_not_subscriptable_witness :
  Example.init (Some Sample.cfg_number) = Raise TypeError.
Proof.
  apply (proj2 (init_raises_iff_not_subscriptable Example.cfg_ir
                  (Some Sample.cfg_number) TypeError)).
  split; [reflexivity|]. exists Sample.cfg_number. split; [reflexivity|].
  right. exists 1%Z. split; [discriminate | vm_compute; reflexivity].
Defined.

Lemma init_string_input_names_witness :
  exists m,
    Example.init (Some Sample.cfg_string) = Return m
    /\ input_name m = VStr "d".
Proof.
  apply (init_string_input_names Example.cfg_ir Sample.cfg_string _ "ata").
  vm_compute. reflexivity.
Defined.

Lemma destroy_raises_iff_adapter_raises_witness :
  fst (destroy Sample.bound_fragile)
  = Raise (RuntimeError "already released").
Proof.
  apply (proj2 (destroy_raises_iff_adapter_raises Sample.bound_fragile
                  (RuntimeError "already released"))).
  eexists _, _. repeat split; reflexivity.
Defined.

Lemma cu_version_name_joins_major_minor_witness :
  Ubuntu.cu_version_name "11.3" = Ubuntu.Done "cu113"
  /\ forall rest,
       Ubuntu.cu_version_name ("11.3." ++ rest) = Ubuntu.Done "cu113".
Proof.
  apply (cu_version_name_joins_major_minor "11" "3"); reflexivity.
Defined.

Lemma cu_version_name_fails_iff_no_dot_witness :
  Ubuntu.cu_version_name "11" = Ubuntu.Fail Ubuntu.IndexError.
Proof.
  apply (proj2 (cu_version_name_fails_iff_no_dot "11")). reflexivity.
Defined.

Lemma cu_version_name_has_no_dot_witness :
  String.prefix "cu" "cu102" = true
  /\ Ubuntu.has_char Ubuntu.dot "cu102" = false.
Proof.
  apply (cu_version_name_has_no_dot "10.2.89" "cu102"). reflexivity.
Defined.

Lemma version_major_reads_first_component_witness :
  Ubuntu.version_major Sample.int "18" = Ubuntu.to_int Sample.int "18"
  /\ (forall rest,
        Ubuntu.version_major Sample.int ("18." ++ rest)
        = Ubuntu.to_int Sample.int "18")
  /\ Ubuntu.to_int Sample.int "18" <> Ubuntu.Fail Ubuntu.IndexError.
Proof.
  apply (version_major_reads_first_component Sample.int "18"). reflexivity.
Defined.

Lemma version_minor_reads_second_component_witness :
  Ubuntu.version_minor Sample.int "18.04" = Ubuntu.to_int Sample.int "04"
  /\ (forall rest,
        Ubuntu.version_minor Sample.int ("18.04." ++ rest)
        = Ubuntu.to_int Sample.int "04")
  /\ Ubuntu.version_minor Sample.int "18" = Ubuntu.Fail Ubuntu.IndexError.
Proof.
  apply (version_minor_reads_second_component Sample.int "18" "04");
    reflexivity.
Defined.

Lemma get_job_default_at_least_two_witness :
  fst (fst (Sample.get_job ["build.py"] false [])) = Ubuntu.Done 7%Z
  /\ (2 <= 7)%Z.
Proof.
  split; [vm_compute; reflexivity|].
  apply (get_job_default_at_least_two Sample.popen_read Sample.int
           ["build.py"] false false []
           [Ubuntu.Print
              (("your can use `python3 " ++ "build.py"
                ++ " N` to set make -j [N]") ++ Ubuntu.nl);
            Ubuntu.Popen "nproc"] 7%Z).
  - simpl. lia.
  - vm_compute. reflexivity.
Defined.

Lemma get_job_explicit_unclamped_witness :
  Sample.get_job ["build.py"; "0"] false [] = (Ubuntu.Done 0%Z, false, []).
Proof.
  apply (get_job_explicit_unclamped Sample.popen_read Sample.int
           "build.py" "0" [] false [] 0%Z).
  vm_compute. reflexivity.
Defined.

Lemma simple_check_install_found_witness :
  Sample.simple_check_install "wget" "sudo" true []
  = (Ubuntu.Done (Some "/usr/bin/wget"), true, [Ubuntu.Popen "which wget"]).
Proof.
  apply (simple_check_install_found Sample.popen_read Sample.os_system
           "wget" "sudo" true []).
  vm_compute. reflexivity.
Defined.

Lemma ensure_base_env_exit_code_witness :
  ([Ubuntu.export_path] = [] \/ [Ubuntu.export_path] = [Ubuntu.export_path])
  /\ ((-1)%Z = 0%Z
      \/ (-1)%Z = (-1)%Z /\ Ubuntu.gave_up (snd Sample.stuck_run)).
Proof.
  apply (ensure_base_env_exit_code
           Sample.popen_nothing Sample.system_nothing Sample.import_nothing
           Sample.int "work" "deps" tt tt [] (snd Sample.stuck_run)).
  vm_compute. reflexivity.
Defined.

Lemma ensure_base_env_raises_only_value_error_witness :
  Ubuntu.ValueError = Ubuntu.ValueError
  /\ (last (snd Sample.rolling_run) = Some (Ubuntu.System " apt update")
      \/ last (snd Sample.rolling_run)
         = Some (Ubuntu.System "sudo apt update")).
Proof.
  apply (ensure_base_env_raises_only_value_error
           Sample.popen_rolling Sample.system_nothing Sample.import_nothing
           Sample.int "work" "deps" tt tt [] (snd Sample.rolling_run)).
  vm_compute. reflexivity.
Defined.

Lemma ensure_base_env_root_never_sudo_witness :
  exists ext,
    snd (Sample.ensure_base_env "work" "deps" false []) = ([] ++ ext)%list
    /\ Forall (fun cmd => Ubuntu.contains "sudo" cmd = false)
         (Ubuntu.commands ext).
Proof.
  apply (ensure_base_env_root_never_sudo
           Sample.popen_read Sample.os_system Sample.import_version
           Sample.int "work" "deps" false []).
  vm_compute. reflexivity.
Defined.

Lemma ensure_base_env_user_always_sudo_witness :
  exists ext,
    snd Sample.rolling_run = ([] ++ ext)%list
    /\ Forall (fun cmd =>
                 Ubuntu.contains "apt" cmd
                 || Ubuntu.contains "update-alternatives" cmd = true ->
                 String.prefix "sudo " cmd = true)
         (Ubuntu.commands ext).
Proof.
  apply (ensure_base_env_user_always_sudo
           Sample.popen_rolling Sample.system_nothing Sample.import_nothing
           Sample.int "work" "deps" tt []).
  vm_compute. reflexivity.
Defined.


Lemma ensure_base_env_release_not_a_number_witness :
  fst (fst Sample.rolling_run) = Ubuntu.Fail Ubuntu.ValueError
  /\ exists sudo ext,
       snd Sample.rolling_run = ([] ++ ext)%list
       /\ Ubuntu.commands ext
          = [ "python3 -m ensurepip"; "python3 -m pip install wheel";
              sudo ++ " DEBIAN_FRONTEND=" ++ Ubuntu.dquote
                   ++ "noninteractive" ++ Ubuntu.dquote
                   ++ " apt install software-properties-common -y";
              sudo ++ " apt update" ].
Proof.
  apply (ensure_base_env_release_not_a_number
           Sample.popen_rolling Sample.system_nothing Sample.import_nothing
           Sample.int "work" "deps" tt [] "rolling").
  - intros w'. reflexivity.
  - intros w'. reflexivity.
  - intros w'. reflexivity.
  - intros w'. vm_compute. reflexivity.
  - discriminate.
  - vm_compute. reflexivity.
Defined.
